(** * Optical-flow fusion of the local position estimator

    A shallow embedding of
    [src/modules/local_position_estimator/sensors/flow.cpp]
    ([flowInit], [flowDeinit], [flowMeasure], [flowCorrect],
    [flowCheckTimeout]) and the properties of it that the specification
    states.

    The C++ [float] is IEEE-754 binary32.  It is modelled with the
    Standard Library's executable specification of IEEE arithmetic
    ([SpecFloat]) at precision 24 and maximal exponent 128, every
    operation rounded to nearest-even on its own. *)

From Stdlib Require Import ZArith NArith Bool List Lia.
From Stdlib Require Import Floats.SpecFloat.
From stdpp Require Import base option list.

Open Scope Z_scope.

(** ** binary32 arithmetic *)

Definition float : Type := spec_float.

Module F32.

Definition prec : Z := 24.
Definition emax : Z := 128.

Definition add : float -> float -> float := SFadd prec emax.
Definition sub : float -> float -> float := SFsub prec emax.
Definition mul : float -> float -> float := SFmul prec emax.
Definition div : float -> float -> float := SFdiv prec emax.
Definition opp : float -> float := SFopp.
(** [sqrtf]: the square root is correctly rounded. *)
Definition sqrtf : float -> float := SFsqrt prec emax.

(** [a < b] and [a > b] of C; both are false as soon as an operand is
    NaN. *)
Definition ltb : float -> float -> bool := SFltb.
Definition gtb (a b : float) : bool := SFltb b a.

(** Conversion of an integer to [float] (round to nearest-even). *)
Definition of_Z (z : Z) : float := binary_normalize prec emax z 0 false.

(** A decimal literal [n/d] with [n] and [d] below [2^24]: the quotient
    of two exact values is rounded once, as the literal is. *)
Definition lit (n d : Z) : float := div (of_Z n) (of_Z d).

Definition zero : float := S754_zero false.
Definition one : float := of_Z 1.

(** Well-formed finite values of the format (zeros included). *)
Definition finite (a : float) : bool :=
  match a with
  | S754_zero _ => true
  | S754_finite _ m e => bounded prec emax m e
  | _ => false
  end.

(** [2^-74]: the square of a well-formed value of at least this
    magnitude does not round to zero. *)
Definition sq_safe : float := S754_finite false 8388608 (-97).

End F32.

Declare Scope f32_scope.
Delimit Scope f32_scope with f32.
Bind Scope f32_scope with float.
Infix "+" := F32.add : f32_scope.
Infix "-" := F32.sub : f32_scope.
Infix "*" := F32.mul : f32_scope.
Infix "/" := F32.div : f32_scope.
Notation "- a" := (F32.opp a) : f32_scope.
Infix "<?" := F32.ltb : f32_scope.
Infix ">?" := F32.gtb : f32_scope.

(** ** Matrices

    [matrix/math.hpp] is not among the sources.  A [Matrix<float, M, N>]
    is the list of its [M] rows; a [Vector<float, M>] is a matrix of one
    column, as in the library.  The dimensions are template arguments in
    the source and explicit arguments here.  The source indexes within
    the dimensions only; here a read outside the list gives zero and a
    write outside it does nothing. *)

Definition Mat : Type := list (list float).

(** [A(i, j)] read. *)
Definition mget (A : Mat) (i j : nat) : float :=
  default F32.zero (A !! i ≫= λ row : list float, row !! j).

(** [A(i, j) = v]. *)
Definition mset (i j : nat) (v : float) (A : Mat) : Mat :=
  alter (λ row : list float, <[j := v]> row) i A.

Definition mbuild (m n : nat) (f : nat -> nat -> float) : Mat :=
  (λ i, f i <$> seq 0 n) <$> seq 0 m.

(** [setZero] on an [m] by [n] matrix. *)
Definition mzero (m n : nat) : Mat := mbuild m n (λ _ _, F32.zero).

(** Modelled from the spec: the product the spec writes [A·B], of an
    [m] by [n] and an [n] by [p] matrix.  Each entry is accumulated into
    a zeroed result from left to right,
    [res(i,k) += self(i,j) * other(j,k)]. *)
Definition mmul (m n p : nat) (A B : Mat) : Mat :=
  mbuild m p (λ i k,
    foldl (λ acc j, acc + mget A i j * mget B j k)%f32 F32.zero (seq 0 n)).

(** Modelled from the spec: the transpose of an [m] by [n] matrix. *)
Definition transpose (m n : nat) (A : Mat) : Mat :=
  mbuild n m (λ i j, mget A j i).

(** Modelled from the spec: the entrywise sum and difference. *)
Definition madd (m n : nat) (A B : Mat) : Mat :=
  mbuild m n (λ i j, mget A i j + mget B i j)%f32.

Definition msub (m n : nat) (A B : Mat) : Mat :=
  mbuild m n (λ i j, mget A i j - mget B i j)%f32.

(** [Matrix3f(const float data[9])]: row-major. *)
Definition Matrix3f_of_array (a : list float) : Mat :=
  mbuild 3 3 (λ i j, default F32.zero (a !! (3 * i + j)%nat)).

(** The nine floats of the identity rotation. *)
Definition identity3 : list float :=
  [ F32.one; F32.zero; F32.zero;
    F32.zero; F32.one; F32.zero;
    F32.zero; F32.zero; F32.one ].


(** ** Data model *)

(** The attitude topic: angles in radians, the body-to-navigation rotation
    as nine floats in row-major order, the body angular rates. *)
Record vehicle_attitude : Type := Build_vehicle_attitude {
  roll : float;
  pitch : float;
  R : list float;
  rollspeed : float;
  pitchspeed : float;
  yawspeed : float
}.

(** The optical-flow topic.  [quality] is held as the [float] it is
    converted to where it is read ([float qual = ...], [Scalarf(...)]);
    [integration_timespan] is an integer number of microseconds. *)
Record optical_flow : Type := Build_optical_flow {
  quality : float;
  pixel_flow_x_integral : float;
  pixel_flow_y_integral : float;
  integration_timespan : Z;
  gyro_x_rate_integral : float;
  gyro_y_rate_integral : float
}.

(** The innovation topic: two arrays of two floats. *)
Record ekf2_innovations : Type := Build_ekf2_innovations {
  flow_innov : float * float;
  flow_innov_var : float * float
}.

(** Modelled from the spec: the Quality Statistics Accumulator
    ([BlockStats<float, 1>] of the control library, which is not among
    the sources at hand).  [update] folds a scalar into the running sums
    behind the mean and the standard deviation and increments the count,
    [reset] zeroes all, [getCount] reads the count. *)
Module BlockStats.
Record t : Type := Build_t {
  count : N;
  sum : float;
  sumSq : float
}.
Definition update (u : float) (s : t) : t :=
  {| count := count s + 1;
     sum := (sum s + u)%f32;
     sumSq := (sumSq s + u * u)%f32 |}.
Definition reset (s : t) : t :=
  {| count := 0; sum := F32.zero; sumSq := F32.zero |}.
Definition getCount (s : t) : N := count s.
End BlockStats.

(** What goes to the log sink [mavlink_log_pub].  The text and its
    arguments are not modelled, only which call was made. *)
Inductive log_event : Type :=
  | log_info_flow_init
  | log_critical_flow_timeout.

(** The members of [BlockLocalPositionEstimator] that [flow.cpp] touches.
    [HP] is the state of a [BlockHighPass].  [_flow_min_q] is held as the
    [float] it is compared as; [_flow_gyro_comp] is an integer parameter
    read for its truth value; the fault level is an unsigned integer;
    the timestamps are 64-bit microsecond counters.  [mavlink_log] is
    the sequence of log calls made so far. *)
Record lpe {HP : Type} : Type := Build_lpe {
  _sub_att : vehicle_attitude;
  _sub_flow : optical_flow;
  _pub_innov : ekf2_innovations;
  _flow_min_q : float;
  _flow_gyro_comp : Z;
  _flow_vxy_stddev : float;
  _flow_vxy_d_stddev : float;
  _flow_vxy_r_stddev : float;
  _flow_gyro_x_high_pass : HP;
  _flow_gyro_y_high_pass : HP;
  _flowQStats : BlockStats.t;
  _flowInitialized : bool;
  _flowFault : N;
  _validTZ : bool;
  _timeStamp : Z;
  _time_last_flow : Z;
  _x : Mat;
  _P : Mat;
  mavlink_log : list log_event
}.

Arguments lpe : clear implicits.
Arguments Build_lpe : clear implicits.

(** Assignments to one member. *)

Definition set_pub_innov {HP : Type} (v : ekf2_innovations)
    (st : lpe HP) : lpe HP :=
  Build_lpe HP
    (_sub_att st) (_sub_flow st) v (_flow_min_q st) (_flow_gyro_comp st)
    (_flow_vxy_stddev st) (_flow_vxy_d_stddev st) (_flow_vxy_r_stddev st)
    (_flow_gyro_x_high_pass st) (_flow_gyro_y_high_pass st)
    (_flowQStats st) (_flowInitialized st) (_flowFault st) (_validTZ st)
    (_timeStamp st) (_time_last_flow st) (_x st) (_P st) (mavlink_log st).

Definition set_flow_gyro_x_high_pass {HP : Type} (v : HP)
    (st : lpe HP) : lpe HP :=
  Build_lpe HP
    (_sub_att st) (_sub_flow st) (_pub_innov st) (_flow_min_q st)
    (_flow_gyro_comp st) (_flow_vxy_stddev st) (_flow_vxy_d_stddev st)
    (_flow_vxy_r_stddev st) v (_flow_gyro_y_high_pass st) (_flowQStats st)
    (_flowInitialized st) (_flowFault st) (_validTZ st) (_timeStamp st)
    (_time_last_flow st) (_x st) (_P st) (mavlink_log st).

Definition set_flow_gyro_y_high_pass {HP : Type} (v : HP)
    (st : lpe HP) : lpe HP :=
  Build_lpe HP
    (_sub_att st) (_sub_flow st) (_pub_innov st) (_flow_min_q st)
    (_flow_gyro_comp st) (_flow_vxy_stddev st) (_flow_vxy_d_stddev st)
    (_flow_vxy_r_stddev st) (_flow_gyro_x_high_pass st) v (_flowQStats st)
    (_flowInitialized st) (_flowFault st) (_validTZ st) (_timeStamp st)
    (_time_last_flow st) (_x st) (_P st) (mavlink_log st).

Definition set_flowQStats {HP : Type} (v : BlockStats.t)
    (st : lpe HP) : lpe HP :=
  Build_lpe HP
    (_sub_att st) (_sub_flow st) (_pub_innov st) (_flow_min_q st)
    (_flow_gyro_comp st) (_flow_vxy_stddev st) (_flow_vxy_d_stddev st)
    (_flow_vxy_r_stddev st) (_flow_gyro_x_high_pass st)
    (_flow_gyro_y_high_pass st) v (_flowInitialized st) (_flowFault st)
    (_validTZ st) (_timeStamp st) (_time_last_flow st) (_x st) (_P st)
    (mavlink_log st).

Definition set_flowInitialized {HP : Type} (v : bool)
    (st : lpe HP) : lpe HP :=
  Build_lpe HP
    (_sub_att st) (_sub_flow st) (_pub_innov st) (_flow_min_q st)
    (_flow_gyro_comp st) (_flow_vxy_stddev st) (_flow_vxy_d_stddev st)
    (_flow_vxy_r_stddev st) (_flow_gyro_x_high_pass st)
    (_flow_gyro_y_high_pass st) (_flowQStats st) v (_flowFault st)
    (_validTZ st) (_timeStamp st) (_time_last_flow st) (_x st) (_P st)
    (mavlink_log st).

Definition set_flowFault {HP : Type} (v : N)
    (st : lpe HP) : lpe HP :=
  Build_lpe HP
    (_sub_att st) (_sub_flow st) (_pub_innov st) (_flow_min_q st)
    (_flow_gyro_comp st) (_flow_vxy_stddev st) (_flow_vxy_d_stddev st)
    (_flow_vxy_r_stddev st) (_flow_gyro_x_high_pass st)
    (_flow_gyro_y_high_pass st) (_flowQStats st) (_flowInitialized st) v
    (_validTZ st) (_timeStamp st) (_time_last_flow st) (_x st) (_P st)
    (mavlink_log st).

Definition set_time_last_flow {HP : Type} (v : Z)
    (st : lpe HP) : lpe HP :=
  Build_lpe HP
    (_sub_att st) (_sub_flow st) (_pub_innov st) (_flow_min_q st)
    (_flow_gyro_comp st) (_flow_vxy_stddev st) (_flow_vxy_d_stddev st)
    (_flow_vxy_r_stddev st) (_flow_gyro_x_high_pass st)
    (_flow_gyro_y_high_pass st) (_flowQStats st) (_flowInitialized st)
    (_flowFault st) (_validTZ st) (_timeStamp st) v (_x st) (_P st)
    (mavlink_log st).

Definition set_x {HP : Type} (v : Mat)
    (st : lpe HP) : lpe HP :=
  Build_lpe HP
    (_sub_att st) (_sub_flow st) (_pub_innov st) (_flow_min_q st)
    (_flow_gyro_comp st) (_flow_vxy_stddev st) (_flow_vxy_d_stddev st)
    (_flow_vxy_r_stddev st) (_flow_gyro_x_high_pass st)
    (_flow_gyro_y_high_pass st) (_flowQStats st) (_flowInitialized st)
    (_flowFault st) (_validTZ st) (_timeStamp st) (_time_last_flow st) v
    (_P st) (mavlink_log st).

Definition set_P {HP : Type} (v : Mat)
    (st : lpe HP) : lpe HP :=
  Build_lpe HP
    (_sub_att st) (_sub_flow st) (_pub_innov st) (_flow_min_q st)
    (_flow_gyro_comp st) (_flow_vxy_stddev st) (_flow_vxy_d_stddev st)
    (_flow_vxy_r_stddev st) (_flow_gyro_x_high_pass st)
    (_flow_gyro_y_high_pass st) (_flowQStats st) (_flowInitialized st)
    (_flowFault st) (_validTZ st) (_timeStamp st) (_time_last_flow st)
    (_x st) v (mavlink_log st).

Definition set_mavlink_log {HP : Type} (v : list log_event)
    (st : lpe HP) : lpe HP :=
  Build_lpe HP
    (_sub_att st) (_sub_flow st) (_pub_innov st) (_flow_min_q st)
    (_flow_gyro_comp st) (_flow_vxy_stddev st) (_flow_vxy_d_stddev st)
    (_flow_vxy_r_stddev st) (_flow_gyro_x_high_pass st)
    (_flow_gyro_y_high_pass st) (_flowQStats st) (_flowInitialized st)
    (_flowFault st) (_validTZ st) (_timeStamp st) (_time_last_flow st)
    (_x st) (_P st) v.

(** What the source takes from outside [flow.cpp], none of it among the
    sources: the high-pass filter step (new filter state and
    output), [cosf] of the C library, the matrix inverse at the size of
    the observation, the layout of the state vector, the table of
    thresholds of the fault detector, the fault level from which a sensor
    is disabled, the height above ground [agl()] read from the estimator,
    and [correctionLogic], which rewrites the correction [dx] from the
    estimator's state. *)
Class Collaborators (HP : Type) : Type := Build_Collaborators {
  hp_update : HP -> float -> HP * float;
  cosf : float -> float;
  inv : Mat -> Mat;
  n_x : nat;
  X_vx : nat;
  X_vy : nat;
  BETA_TABLE : nat -> float;
  fault_lvl_disable : N;
  agl : lpe HP -> float;
  correctionLogic : lpe HP -> Mat -> Mat
}.

(** ** Constants *)

Definition REQ_FLOW_INIT_COUNT : N := 10.
Definition FLOW_TIMEOUT : Z := 1000000.
Definition flow_min_agl : float := F32.lit 3 10.

(** Modelled from the spec: the fault ladder starts [NONE < MINOR]; the
    source tests the level for being non-zero to mean "not NONE". *)
Definition FAULT_NONE : N := 0.
Definition FAULT_MINOR : N := 1.

(** The observation: two velocity components. *)
Definition Y_flow_vx : nat := 0.
Definition Y_flow_vy : nat := 1.
Definition n_y_flow : nat := 2.

(** Subtraction of two 64-bit unsigned timestamps. *)
Definition sub_u64 (a b : Z) : Z := (a - b) mod 2 ^ 64.

(** ** The functions of flow.cpp *)

Section Flow.

Context {HP : Type} {env : Collaborators HP}.

Local Open Scope f32_scope.

Definition flow_d (st : lpe HP) : float :=
  agl st * cosf (roll (_sub_att st)) * cosf (pitch (_sub_att st)).

Definition dt_flow (st : lpe HP) : float :=
  F32.of_Z (integration_timespan (_sub_flow st)) / F32.of_Z 1000000.

(** The result is the new state and the observation [y], or [None] for
    the return value [-1]. *)
Definition flowMeasure (st : lpe HP) : lpe HP * option Mat :=
  (* check for sane pitch/roll *)
  if (roll (_sub_att st) >? F32.lit 5 10)
     || (pitch (_sub_att st) >? F32.lit 5 10) then (st, None)
  (* check for agl *)
  else if agl st <? flow_min_agl then (st, None)
  (* check quality *)
  else
  let qual := quality (_sub_flow st) in
  if qual <? _flow_min_q st then (st, None)
  (* calculate range to center of image for flow *)
  else if negb (_validTZ st) then (st, None)
  else
  let d := flow_d st in
  (* optical flow in x, y axis *)
  let flow_x_rad := pixel_flow_x_integral (_sub_flow st) in
  let flow_y_rad := pixel_flow_y_integral (_sub_flow st) in
  let dt_flow := dt_flow st in
  if (dt_flow >? F32.lit 5 10) || (dt_flow <? F32.lit 1 1000000)
  then (st, None)
  else
  (* angular rotation in x, y axis *)
  let '(st, gyro_x_rad, gyro_y_rad) :=
    if negb (_flow_gyro_comp st =? 0)%Z then
      let '(hx, gx) := hp_update (_flow_gyro_x_high_pass st)
                         (gyro_x_rate_integral (_sub_flow st)) in
      let st := set_flow_gyro_x_high_pass hx st in
      let '(hy, gy) := hp_update (_flow_gyro_y_high_pass st)
                         (gyro_y_rate_integral (_sub_flow st)) in
      (set_flow_gyro_y_high_pass hy st, gx, gy)
    else (st, F32.zero, F32.zero) in
  (* compute velocities in camera frame using ground distance *)
  let delta_b : Mat :=
    [ [ - (flow_x_rad - gyro_x_rad) * d ];
      [ - (flow_y_rad - gyro_y_rad) * d ];
      [ F32.zero ] ] in
  (* rotation of flow from body to nav frame *)
  let R_nb := Matrix3f_of_array (R (_sub_att st)) in
  let delta_n := mmul 3 3 1 R_nb delta_b in
  (* important to timestamp flow even if distance is bad *)
  let st := set_time_last_flow (_timeStamp st) st in
  (* measurement *)
  let y := mset Y_flow_vx 0 (mget delta_n 0 0 / dt_flow) (mzero n_y_flow 1) in
  let y := mset Y_flow_vy 0 (mget delta_n 1 0 / dt_flow) y in
  let st := set_flowQStats
              (BlockStats.update (quality (_sub_flow st)) (_flowQStats st))
              st in
  (st, Some y).

Definition flowDeinit (st : lpe HP) : lpe HP :=
  let st := set_flowInitialized false st in
  set_flowQStats (BlockStats.reset (_flowQStats st)) st.

Definition flowInit (st : lpe HP) : lpe HP :=
  match flowMeasure st with
  | (st, None) => set_flowQStats (BlockStats.reset (_flowQStats st)) st
  | (st, Some y) =>
      (* if finished *)
      if (REQ_FLOW_INIT_COUNT <? BlockStats.getCount (_flowQStats st))%N
      then
        let st := set_mavlink_log
                    (mavlink_log st ++ [log_info_flow_init]) st in
        let st := set_flowInitialized true st in
        set_flowFault FAULT_NONE st
      else st
  end.

(** The measurement matrix [C] and the noise matrix [R] of a cycle. *)
Definition flow_C : Mat :=
  mset Y_flow_vy X_vy F32.one
    (mset Y_flow_vx X_vx F32.one (mzero n_y_flow n_x)).

Definition rot_rate_norm (st : lpe HP) : float :=
  let a := _sub_att st in
  F32.sqrtf (rollspeed a * rollspeed a
             + pitchspeed a * pitchspeed a
             + yawspeed a * yawspeed a).

Definition flow_vxy_stddev (st : lpe HP) : float :=
  _flow_vxy_stddev st
  + _flow_vxy_d_stddev st * flow_d st
  + _flow_vxy_r_stddev st * rot_rate_norm st.

Definition flow_R (st : lpe HP) : Mat :=
  let R := mzero n_y_flow n_y_flow in
  let R := mset Y_flow_vx Y_flow_vx
             (flow_vxy_stddev st * flow_vxy_stddev st) R in
  mset Y_flow_vy Y_flow_vy (mget R Y_flow_vx Y_flow_vx) R.

(** The residual of an observation [y] against the state. *)
Definition flow_residual (st : lpe HP) (y : Mat) : Mat :=
  msub n_y_flow 1 y (mmul n_y_flow n_x 1 flow_C (_x st)).

(** The residual covariance [S = C P C^T + R]. *)
Definition flow_S (P R : Mat) : Mat :=
  madd n_y_flow n_y_flow
    (mmul n_y_flow n_x n_y_flow
       (mmul n_y_flow n_x n_x flow_C P)
       (transpose n_y_flow n_x flow_C))
    R.

(** [beta = r^T (S_I r)]. *)
Definition flow_beta (r S_I : Mat) : float :=
  mget (mmul 1 n_y_flow 1 (transpose n_y_flow 1 r)
          (mmul n_y_flow n_y_flow 1 S_I r)) 0 0.

(** The fault detection of [flowCorrect], from [beta]. *)
Definition flow_fault_detect (beta : float) (st : lpe HP) : lpe HP :=
  if beta >? BETA_TABLE n_y_flow then
    if (_flowFault st <? FAULT_MINOR)%N
    then set_flowFault FAULT_MINOR st
    else st
  else if negb (_flowFault st =? 0)%N then set_flowFault FAULT_NONE st
  else st.

(** The Kalman update of [flowCorrect], from the residual and the
    inverse of the residual covariance. *)
Definition flow_kalman_update (r S_I : Mat) (st : lpe HP) : lpe HP :=
  let K := mmul n_x n_y_flow n_y_flow
             (mmul n_x n_x n_y_flow (_P st)
                (transpose n_y_flow n_x flow_C))
             S_I in
  let dx := mmul n_x n_y_flow 1 K r in
  let dx := correctionLogic st dx in
  let st := set_x (madd n_x 1 (_x st) dx) st in
  set_P (msub n_x n_x (_P st)
           (mmul n_x n_x n_x (mmul n_x n_y_flow n_x K flow_C) (_P st)))
    st.

Definition flowCorrect (st : lpe HP) : lpe HP :=
  (* measure flow *)
  match flowMeasure st with
  | (st, None) => st
  | (st, Some y) =>
      (* flow measurement matrix and noise matrix *)
      let R := flow_R st in
      (* residual *)
      let r := flow_residual st y in
      let st :=
        set_pub_innov
          {| flow_innov := (mget r 0 0, mget r 1 0);
             flow_innov_var := (mget R 0 0, mget R 1 1) |} st in
      (* residual covariance, (inverse) *)
      let S_I := inv (flow_S (_P st) R) in
      (* fault detection *)
      let beta := flow_beta r S_I in
      let st := flow_fault_detect beta st in
      if (_flowFault st <? fault_lvl_disable)%N
      then flow_kalman_update r S_I st
      else st
  end.

Definition flowCheckTimeout (st : lpe HP) : lpe HP :=
  if (FLOW_TIMEOUT <? sub_u64 (_timeStamp st) (_time_last_flow st))%Z then
    if _flowInitialized st then
      let st := flowDeinit st in
      set_mavlink_log (mavlink_log st ++ [log_critical_flow_timeout]) st
    else st
  else st.

End Flow.

(** ** A reference configuration

    Stand-ins for the collaborators and a family of estimator states, to
    run the functions on concrete inputs. *)

Module Ref.

Local Open Scope f32_scope.

(** A one-pole high-pass filter: the state is the last input and the
    last output. *)
Definition HP : Type := float * float.
Definition high_pass (h : HP) (u : float) : HP * float :=
  let y := F32.lit 9 10 * (snd h + u - fst h) in ((u, y), y).

(** The cosine by its expansion up to the fourth power; exact at zero. *)
Definition cos4 (a : float) : float :=
  F32.one - a * a / F32.of_Z 2 + a * a * a * a / F32.of_Z 24.

(** The inverse of a 2 by 2 matrix by its adjugate. *)
Definition inv2 (A : Mat) : Mat :=
  let det := mget A 0 0 * mget A 1 1 - mget A 0 1 * mget A 1 0 in
  [ [ mget A 1 1 / det; - mget A 0 1 / det ];
    [ - mget A 1 0 / det; mget A 0 0 / det ] ].

Definition beta_table (n : nat) : float :=
  default F32.zero
    ([ F32.zero; F32.lit 8820505 1000000; F32.lit 12094592 1000000 ] !! n).

(** Ten states [x y z vx vy vz bx by bz tz]; the height above ground is
    the terrain state less the altitude state. *)
Definition X_z : nat := 2.
Definition X_tz : nat := 9.

#[global] Instance env : Collaborators HP :=
  {| hp_update := high_pass;
     cosf := cos4;
     inv := inv2;
     n_x := 10;
     X_vx := 3;
     X_vy := 4;
     BETA_TABLE := beta_table;
     fault_lvl_disable := 2;
     agl := λ st, mget (_x st) X_tz 0 - mget (_x st) X_z 0;
     correctionLogic := λ _ dx, dx |}.

(** Level attitude at rest, or rolled by [r]. *)
Definition att (r : float) : vehicle_attitude :=
  {| roll := r; pitch := F32.zero; R := identity3;
     rollspeed := F32.zero; pitchspeed := F32.zero; yawspeed := F32.zero |}.

(** A sample of quality 255 integrated over [span] microseconds. *)
Definition flow (fx : float) (span : Z) : optical_flow :=
  {| quality := F32.of_Z 255;
     pixel_flow_x_integral := fx;
     pixel_flow_y_integral := F32.zero;
     integration_timespan := span;
     gyro_x_rate_integral := F32.zero;
     gyro_y_rate_integral := F32.zero |}.

(** The state vector with terrain state [h] and all else zero: the
    height above ground is [h]. *)
Definition x0 (h : float) : Mat :=
  mset X_tz 0 h (mzero 10 1).

(** A diagonal covariance, [p] everywhere on the diagonal. *)
Definition P0 (p : float) : Mat :=
  mbuild 10 10 (λ i j, if (i =? j)%nat then p else F32.zero).

Definition state (a : vehicle_attitude) (f : optical_flow) (h : float)
    (stddev : float) (fault : N) (init : bool) (now last : Z) : lpe HP :=
  {| _sub_att := a;
     _sub_flow := f;
     _pub_innov := {| flow_innov := (F32.zero, F32.zero);
                      flow_innov_var := (F32.zero, F32.zero) |};
     _flow_min_q := F32.of_Z 150;
     _flow_gyro_comp := 0;
     _flow_vxy_stddev := stddev;
     _flow_vxy_d_stddev := F32.zero;
     _flow_vxy_r_stddev := F32.zero;
     _flow_gyro_x_high_pass := (F32.zero, F32.zero);
     _flow_gyro_y_high_pass := (F32.zero, F32.zero);
     _flowQStats := {| BlockStats.count := 10;
                       BlockStats.sum := F32.of_Z 2550;
                       BlockStats.sumSq := F32.of_Z 650250 |};
     _flowInitialized := init;
     _flowFault := fault;
     _validTZ := true;
     _timeStamp := now;
     _time_last_flow := last;
     _x := x0 h;
     _P := P0 (F32.lit 1 100);
     mavlink_log := [] |}.

(** The scenario of the specification: height 1, level, a flow angle of
    0.01 rad over 0.01 s, no gyro compensation. *)
Definition nominal : lpe HP :=
  state (att F32.zero) (flow (F32.lit 1 100) 10000) F32.one
    (F32.lit 1 10) FAULT_NONE true 5000000 4990000.

(** The same rolled by -1 rad. *)
Definition negative_roll : lpe HP :=
  state (att (- F32.one)) (flow (F32.lit 1 100) 10000) F32.one
    (F32.lit 1 10) FAULT_NONE true 5000000 4990000.

(** The same with the fault level already at the disable level. *)
Definition disabled : lpe HP :=
  state (att F32.zero) (flow (F32.lit 1 100) 10000) F32.one
    (F32.lit 1 10) 2 true 5000000 4990000.

(** The same at a height of 0.2. *)
Definition too_low : lpe HP :=
  state (att F32.zero) (flow (F32.lit 1 100) 10000) (F32.lit 2 10)
    (F32.lit 1 10) FAULT_NONE true 5000000 4990000.

(** The same before initialization, ten samples counted. *)
Definition initializing : lpe HP :=
  state (att F32.zero) (flow (F32.lit 1 100) 10000) F32.one
    (F32.lit 1 10) FAULT_NONE false 5000000 4990000.

(** No accepted measurement for four seconds, initialized or not. *)
Definition timed_out (init : bool) : lpe HP :=
  state (att F32.zero) (flow (F32.lit 1 100) 10000) F32.one
    (F32.lit 1 10) FAULT_NONE init 5000000 1000000.

(** The nominal scenario with a base standard deviation of [2^-100]. *)
Definition tiny_stddev : lpe HP :=
  state (att F32.zero) (flow (F32.lit 1 100) 10000) F32.one
    (S754_finite false 8388608 (-123)) FAULT_NONE true 5000000 4990000.

End Ref.


(** ** Notions for the further properties *)

(** A zero of either sign. *)
Definition is_zero (a : float) : Prop := exists s, a = S754_zero s.

(** A running sum that is the positive zero or a finite value other than
    zero: adding a zero of either sign leaves it as it is. *)
Definition settled (a : float) : Prop :=
  a = F32.zero \/ exists s m e, a = S754_finite s m e.

(** Whether [flowMeasure] accepts the sample of a state. *)
Definition flow_accepts {HP : Type} {env : Collaborators HP}
    (st : lpe HP) : bool :=
  match snd (flowMeasure st) with Some _ => true | None => false end.

(** Cycles of [flowInit].  Between two cycles anything may be written to
    the estimator except the quality statistics and the initialization
    flag; the list records, oldest first, which cycles had their sample
    accepted. *)
Inductive flowInit_cycles {HP : Type} {env : Collaborators HP}
    (st0 : lpe HP) : list bool -> lpe HP -> Prop :=
  | flowInit_cycles_nil : flowInit_cycles st0 [] st0
  | flowInit_cycles_snoc (l : list bool) (st st_in : lpe HP) :
      flowInit_cycles st0 l st ->
      _flowQStats st_in = _flowQStats st ->
      _flowInitialized st_in = _flowInitialized st ->
      flowInit_cycles st0 (l ++ [flow_accepts st_in]) (flowInit st_in).

(** The number of accepted samples at the end of a record. *)
Definition trailing (l : list bool) : nat :=
  foldl (fun c (b : bool) => if b then S c else 0%nat) 0%nat l.

(** A record holds [k] accepted samples in a row somewhere. *)
Definition has_run (k : nat) (l : list bool) : Prop :=
  exists l1 l2, l = l1 ++ replicate k true ++ l2.

(** The component of the state vector that an axis of the observation
    reads: the rows [Y_flow_vx] and [Y_flow_vy] of [C] are set at
    [X_vx] and [X_vy]. *)
Definition flow_axis_state {HP : Type} {env : Collaborators HP}
    (i : nat) : nat :=
  match i with 0%nat => X_vx | _ => X_vy end.

(** More states of the reference configuration. *)
Module RefCases.

(** The nominal scenario with gyro compensation on and gyro integrals of
    0.002 and 0.003 rad. *)
Definition gyro_comp_on : lpe Ref.HP :=
  {| _sub_att := Ref.att F32.zero;
     _sub_flow :=
       {| quality := F32.of_Z 255;
          pixel_flow_x_integral := F32.lit 1 100;
          pixel_flow_y_integral := F32.zero;
          integration_timespan := 10000;
          gyro_x_rate_integral := F32.lit 2 1000;
          gyro_y_rate_integral := F32.lit 3 1000 |};
     _pub_innov := _pub_innov Ref.nominal;
     _flow_min_q := F32.of_Z 150;
     _flow_gyro_comp := 1;
     _flow_vxy_stddev := F32.lit 1 10;
     _flow_vxy_d_stddev := F32.zero;
     _flow_vxy_r_stddev := F32.zero;
     _flow_gyro_x_high_pass := (F32.zero, F32.zero);
     _flow_gyro_y_high_pass := (F32.zero, F32.zero);
     _flowQStats := _flowQStats Ref.nominal;
     _flowInitialized := true;
     _flowFault := FAULT_NONE;
     _validTZ := true;
     _timeStamp := 5000000;
     _time_last_flow := 4990000;
     _x := Ref.x0 F32.one;
     _P := Ref.P0 (F32.lit 1 100);
     mavlink_log := [] |}.

(** The nominal scenario with a terrain state that is NaN, so that the
    height above ground is, and the fault level at the disable level. *)
Definition nan_height : lpe Ref.HP :=
  Ref.state (Ref.att F32.zero) (Ref.flow (F32.lit 1 100) 10000) S754_nan
    (F32.lit 1 10) 2 true 5000000 4990000.

(** The nominal scenario with no flow at all. *)
Definition hovering : lpe Ref.HP :=
  Ref.state (Ref.att F32.zero) (Ref.flow F32.zero 10000) F32.one
    (F32.lit 1 10) FAULT_NONE true 5000000 4990000.

(** The nominal scenario turning at 0.3 and 0.4 rad/s about the roll and
    pitch axes, with a noise model of 0.1 + 0.05 d + 0.02 |rates|. *)
Definition noisy : lpe Ref.HP :=
  {| _sub_att :=
       {| roll := F32.zero; pitch := F32.zero; R := identity3;
          rollspeed := F32.lit 3 10; pitchspeed := F32.lit 4 10;
          yawspeed := F32.zero |};
     _sub_flow := Ref.flow (F32.lit 1 100) 10000;
     _pub_innov := _pub_innov Ref.nominal;
     _flow_min_q := F32.of_Z 150;
     _flow_gyro_comp := 0;
     _flow_vxy_stddev := F32.lit 1 10;
     _flow_vxy_d_stddev := F32.lit 5 100;
     _flow_vxy_r_stddev := F32.lit 2 100;
     _flow_gyro_x_high_pass := (F32.zero, F32.zero);
     _flow_gyro_y_high_pass := (F32.zero, F32.zero);
     _flowQStats := _flowQStats Ref.nominal;
     _flowInitialized := true;
     _flowFault := FAULT_NONE;
     _validTZ := true;
     _timeStamp := 5000000;
     _time_last_flow := 4990000;
     _x := Ref.x0 F32.one;
     _P := Ref.P0 (F32.lit 1 100);
     mavlink_log := [] |}.

End RefCases.

(** ** Facts of binary32 arithmetic *)

Section F32Facts.

Local Open Scope f32_scope.

(** The literals of the source, as bits. *)
Example lit_0_5 : F32.lit 5 10 = S754_finite false 8388608 (-24).
Proof. reflexivity. Qed.

Example lit_0_3 : flow_min_agl = S754_finite false 10066330 (-25).
Proof. reflexivity. Qed.

Example lit_1e_6 : F32.lit 1 1000000 = S754_finite false 8796093 (-43).
Proof. reflexivity. Qed.

Example lit_1e6 : F32.of_Z 1000000 = S754_finite false 16000000 (-4).
Proof. reflexivity. Qed.

Example lit_0_01 : F32.lit 1 100 = S754_finite false 10737418 (-30).
Proof. reflexivity. Qed.

Example lit_1 : F32.one = S754_finite false 8388608 (-23).
Proof. reflexivity. Qed.

Lemma SFcompare_antisym (a b : float) :
  SFcompare b a = option_map CompOpp (SFcompare a b).
Proof.
  destruct a as [sa|sa| |sa ma ea], b as [sb|sb| |sb mb eb]; cbn;
    try destruct sa; try destruct sb; try reflexivity.
  - rewrite (Z.compare_antisym ea eb).
    destruct (ea ?= eb)%Z; cbn; try reflexivity.
    change (Pos.compare_cont Eq mb ma) with (mb ?= ma)%positive.
    change (Pos.compare_cont Eq ma mb) with (ma ?= mb)%positive.
    now rewrite (Pos.compare_antisym ma mb).
  - rewrite (Z.compare_antisym ea eb).
    destruct (ea ?= eb)%Z; cbn; try reflexivity.
    change (Pos.compare_cont Eq mb ma) with (mb ?= ma)%positive.
    change (Pos.compare_cont Eq ma mb) with (ma ?= mb)%positive.
    now rewrite (Pos.compare_antisym ma mb).
Qed.

Lemma ltb_asym (a b : float) : (a <? b) = true -> (b <? a) = false.
Proof.
  unfold F32.ltb, SFltb. rewrite (SFcompare_antisym a b).
  destruct (SFcompare a b) as [[]|]; cbn; congruence.
Qed.

(** A value below [-0.5] is not above [0.5]. *)
Lemma ltb_neg_half (a : float) :
  (a <? - F32.lit 5 10) = true -> (a >? F32.lit 5 10) = false.
Proof.
  destruct a as [s|s| |s m e]; try destruct s; try discriminate;
    reflexivity.
Qed.

(** Multiplication by one is exact on well-formed values. *)
Lemma mul_one_r s m e :
  bounded F32.prec F32.emax m e = true ->
  S754_finite s m e * F32.one = S754_finite s m e.
Proof.
  intros Hb. unfold bounded, canonical_mantissa in Hb.
  apply andb_true_iff in Hb as [Hc He].
  apply Z.eqb_eq in Hc. apply Z.leb_le in He.
  change F32.one with (S754_finite false 8388608 (-23)).
  unfold F32.mul, SFmul. rewrite xorb_false_r.
  rewrite (Pos.mul_comm m 8388608).
  let t := eval lazy in (8388608 * m)%positive in
  change (8388608 * m)%positive with t.
  unfold binary_round_aux, shr_fexp.
  cbn [Zdigits2].
  cbn [digits2_pos].
  unfold fexp, emin, F32.prec, F32.emax in *.
  match goal with
  | |- context [shr ?r ?x ?n] => replace n with 23%Z by lia
  end.
  cbn [shr shr_record_of_loc].
  match goal with
  | |- context [SpecFloat.iter_pos shr_1 23 ?r] =>
      let t := eval lazy in (SpecFloat.iter_pos shr_1 23 r) in
      change (SpecFloat.iter_pos shr_1 23 r) with t
  end.
  cbn [loc_of_shr_record shr_m round_nearest_even Zdigits2].
  replace (e + -23 + 23)%Z with e by lia.
  match goal with
  | |- context [shr ?r ?x ?n] => replace n with 0%Z by lia
  end.
  cbn [shr shr_record_of_loc shr_m].
  destruct (Z.leb_spec e (128 - 24)); [reflexivity|lia].
Qed.

(** One axis of the body-frame displacement at distance one, without
    gyro compensation: finite when the flow angle is. *)
Lemma body_axis_finite (a : float) :
  F32.finite a = true ->
  exists b, - (a - F32.zero) * F32.one = b
            /\ match b with
               | S754_zero _ | S754_finite _ _ _ => True
               | _ => False
               end.
Proof.
  destruct a as [s| | |s m e]; try discriminate; intros Hb.
  - destruct s; eexists; (split; [vm_compute; reflexivity|exact I]).
  - exists (S754_finite (negb s) m e). split; [|exact I].
    change (S754_finite s m e - F32.zero) with (S754_finite s m e).
    change (- S754_finite s m e) with (S754_finite (negb s) m e).
    apply (mul_one_r _ _ _ Hb).
Qed.

(** The result of a rounding keeps the sign it is given. *)
Lemma binary_round_aux_sign sx mx ex lx :
  match binary_round_aux F32.prec F32.emax sx mx ex lx with
  | S754_zero s | S754_infinity s | S754_finite s _ _ => s = sx
  | S754_nan => True
  end.
Proof.
  unfold binary_round_aux.
  destruct (shr_fexp _ _ _ _ _) as [mrs' e'].
  destruct (shr_fexp _ _ _ _ _) as [mrs'' e''].
  destruct (shr_m mrs''); [reflexivity| |exact I].
  destruct (e'' <=? _)%Z; reflexivity.
Qed.

(** A square never compares below zero. *)
Lemma sq_not_negative (a : float) : (a * a <? F32.zero) = false.
Proof.
  destruct a as [s|s| |s m e]; try (destruct s; reflexivity);
    try reflexivity.
  unfold F32.mul, SFmul.
  pose proof (binary_round_aux_sign (xorb s s) (Z.pos (m * m)) (e + e)
                loc_Exact) as H.
  rewrite xorb_nilpotent in *.
  destruct (binary_round_aux _ _ _ _ _ _); subst; reflexivity.
Qed.

Lemma digits2_pos_le (p : positive) :
  (2 ^ (Z.pos (digits2_pos p) - 1) <= Z.pos p)%Z.
Proof.
  induction p as [p IH|p IH|]; cbn [digits2_pos]; [| |reflexivity].
  - rewrite Pos2Z.inj_succ.
    replace (Z.succ (Z.pos (digits2_pos p)) - 1)%Z
      with (Z.succ (Z.pos (digits2_pos p) - 1)) by lia.
    rewrite Z.pow_succ_r by lia. lia.
  - rewrite Pos2Z.inj_succ.
    replace (Z.succ (Z.pos (digits2_pos p)) - 1)%Z
      with (Z.succ (Z.pos (digits2_pos p) - 1)) by lia.
    rewrite Z.pow_succ_r by lia. lia.
Qed.

(** One step of the right shift halves the mantissa. *)
Lemma shr_1_m (r : shr_record) :
  (0 <= shr_m r)%Z -> shr_m (shr_1 r) = (shr_m r / 2)%Z.
Proof.
  destruct r as [m r s]. cbn [shr_m]. intros Hm.
  destruct m as [|[p|p|]|p]; cbn [shr_1 shr_m]; try lia.
  - reflexivity.
  - apply (Z.div_unique _ 2 _ 1); lia.
  - apply (Z.div_unique _ 2 _ 0); lia.
  - reflexivity.
Qed.

Lemma iter_shr_1_m (n : positive) : forall r : shr_record,
  (0 <= shr_m r)%Z ->
  shr_m (SpecFloat.iter_pos shr_1 n r) = (shr_m r / 2 ^ Z.pos n)%Z.
Proof.
  assert (Hnn : forall a k, (0 <= a -> 0 <= a / 2 ^ Z.pos k)%Z).
  { intros a k Ha. apply Z.div_pos; [exact Ha|].
    apply Z.pow_pos_nonneg; lia. }
  assert (Hpos : forall k, (0 < 2 ^ Z.pos k)%Z)
    by (intros; apply Z.pow_pos_nonneg; lia).
  induction n as [n IH|n IH|]; intros r Hr; cbn [SpecFloat.iter_pos].
  - assert (H1 : (0 <= shr_m (shr_1 r))%Z).
    { rewrite shr_1_m by exact Hr. apply Z.div_pos; lia. }
    assert (H2 : (0 <= shr_m (SpecFloat.iter_pos shr_1 n (shr_1 r)))%Z).
    { rewrite IH by exact H1. apply Hnn, H1. }
    rewrite (IH _ H2), (IH _ H1), (shr_1_m _ Hr).
    rewrite !Z.div_div by (try apply Hpos; lia).
    f_equal. rewrite Pos2Z.inj_xI.
    rewrite <- Z.pow_add_r, <- Z.pow_succ_r by lia. f_equal. lia.
  - assert (H2 : (0 <= shr_m (SpecFloat.iter_pos shr_1 n r))%Z).
    { rewrite IH by exact Hr. apply Hnn, Hr. }
    rewrite (IH _ H2), (IH _ Hr).
    rewrite !Z.div_div by (try apply Hpos; lia).
    f_equal. rewrite Pos2Z.inj_xO.
    rewrite <- Z.pow_add_r by lia. f_equal. lia.
  - apply shr_1_m, Hr.
Qed.

(** A mantissa no smaller than the weight of the last place keeps a
    positive value through the shift to the format's exponent. *)
Lemma shr_fexp_pos (M : positive) (E : Z) :
  (2 ^ (-149 - E) <= Z.pos M)%Z ->
  (0 < shr_m (fst (shr_fexp F32.prec F32.emax (Z.pos M) E loc_Exact)))%Z
  /\ (-149 <= snd (shr_fexp F32.prec F32.emax (Z.pos M) E loc_Exact))%Z.
Proof.
  intros HM.
  pose proof (digits2_pos_le M) as Hd.
  unfold shr_fexp, fexp, emin, F32.prec, F32.emax.
  cbn [Zdigits2 shr_record_of_loc].
  set (d := Z.pos (digits2_pos M)) in *.
  destruct ((d + E - 24) `max` (3 - 128 - 24) - E)%Z as [|n|n] eqn:En;
    cbn [shr fst snd shr_m]; [lia| |lia].
  rewrite iter_shr_1_m by (cbn; lia). cbn [shr_m].
  split; [|lia].
  apply Z.div_str_pos. split; [apply Z.pow_pos_nonneg; lia|].
  destruct (Z.max_spec (d + E - 24) (3 - 128 - 24)) as [[_ Hm]|[_ Hm]];
    rewrite Hm in En.
  - replace (Z.pos n) with (-149 - E)%Z by lia. exact HM.
  - etransitivity; [|exact Hd].
    apply Z.pow_le_mono_r; lia.
Qed.

Lemma round_nearest_even_pos (m : Z) (l : location) :
  (0 < m)%Z -> (0 < round_nearest_even m l)%Z.
Proof.
  intros Hm. destruct l as [|[]]; cbn [round_nearest_even];
    try destruct (Z.even m); lia.
Qed.

(** Such a mantissa rounds to a positive value, finite or infinite. *)
Lemma binary_round_aux_pos (M : positive) (E : Z) :
  (2 ^ (-149 - E) <= Z.pos M)%Z ->
  (F32.zero
   <? binary_round_aux F32.prec F32.emax false (Z.pos M) E loc_Exact)
  = true.
Proof.
  intros HM. unfold binary_round_aux.
  destruct (shr_fexp_pos M E HM) as [H1 H2].
  destruct (shr_fexp F32.prec F32.emax (Z.pos M) E loc_Exact)
    as [mrs' e']. cbn [fst snd] in H1, H2.
  pose proof (round_nearest_even_pos _ (loc_of_shr_record mrs') H1) as H3.
  destruct (round_nearest_even (shr_m mrs') (loc_of_shr_record mrs'))
    as [|M'|M']; try lia.
  assert (HM' : (2 ^ (-149 - e') <= Z.pos M')%Z).
  { destruct (Z.eq_dec e' (-149)) as [->|].
    - change (2 ^ (-149 - -149))%Z with 1%Z. lia.
    - rewrite Z.pow_neg_r by lia. lia. }
  destruct (shr_fexp_pos M' e' HM') as [H4 _].
  destruct (shr_fexp F32.prec F32.emax (Z.pos M') e' loc_Exact)
    as [mrs'' e'']. cbn [fst] in H4.
  destruct (shr_m mrs'') as [|M''|M'']; try lia.
  destruct (e'' <=? F32.emax - F32.prec)%Z; reflexivity.
Qed.

(** The square of a well-formed value of magnitude [2^-74] or more is
    above zero. *)
Lemma sq_positive (a : float) :
  valid_binary F32.prec F32.emax a = true ->
  SFleb F32.sq_safe (SFabs a) = true ->
  (F32.zero <? a * a) = true.
Proof.
  destruct a as [s|s| |s m e]; try discriminate.
  - destruct s; reflexivity.
  - cbn [valid_binary SFabs]. intros Hb Hle.
    unfold F32.mul, SFmul. rewrite xorb_nilpotent.
    apply binary_round_aux_pos.
    unfold bounded, canonical_mantissa, fexp, emin, F32.prec, F32.emax
      in Hb.
    apply andb_true_iff in Hb as [Hc _]. apply Z.eqb_eq in Hc.
    assert (He : (-97 <= e)%Z).
    { unfold SFleb, F32.sq_safe, SFcompare in Hle.
      destruct (Z.compare_spec (-97) e); try lia; discriminate. }
    pose proof (digits2_pos_le m) as Hd.
    replace (Z.pos (digits2_pos m)) with 24%Z in Hd by lia.
    rewrite Pos2Z.inj_mul.
    transitivity (2 ^ 45)%Z; [apply Z.pow_le_mono_r; lia|].
    change (2 ^ (24 - 1))%Z with 8388608%Z in Hd.
    change (2 ^ 45)%Z with 35184372088832%Z. nia.
Qed.

(** The difference of two timestamps in order is the elapsed time. *)
Lemma sub_u64_elapsed (now last : Z) :
  (0 <= last <= now)%Z -> (now < 2 ^ 64)%Z ->
  sub_u64 now last = (now - last)%Z.
Proof. intros H1 H2. unfold sub_u64. apply Z.mod_small. lia. Qed.

End F32Facts.

(** ** The measurement: what a call leaves behind *)

Section MeasureFacts.

Context {HP : Type} {env : Collaborators HP}.
Implicit Types st : lpe HP.

Local Open Scope f32_scope.

(** A rejected sample leaves the whole estimator as it was. *)
Lemma flowMeasure_None st st1 :
  flowMeasure st = (st1, None) -> st1 = st.
Proof.
  unfold flowMeasure.
  repeat match goal with
         | |- context [if ?b then _ else _] => destruct b
         | |- context [hp_update ?h ?u] => destruct (hp_update h u)
         end; congruence.
Qed.

(** The members a successful measurement writes: the last-flow time, the
    quality statistics and, under gyro compensation, the two filters. *)
Lemma flowMeasure_Some st st1 y :
  flowMeasure st = (st1, Some y) ->
  _time_last_flow st1 = _timeStamp st
  /\ _flowQStats st1
     = BlockStats.update (quality (_sub_flow st)) (_flowQStats st)
  /\ _x st1 = _x st /\ _P st1 = _P st
  /\ _pub_innov st1 = _pub_innov st
  /\ _flowFault st1 = _flowFault st
  /\ _flowInitialized st1 = _flowInitialized st
  /\ mavlink_log st1 = mavlink_log st
  /\ _timeStamp st1 = _timeStamp st.
Proof.
  unfold flowMeasure.
  repeat match goal with
         | |- context [if ?b then _ else _] => destruct b
         | |- context [hp_update ?h ?u] => destruct (hp_update h u)
         end; try discriminate;
    intros [= <- _]; cbn; auto 10.
Qed.

(** The checks of the source, one by one: each of them rejects. *)
Lemma flowMeasure_gate st :
  (roll (_sub_att st) >? F32.lit 5 10) = true
  \/ (pitch (_sub_att st) >? F32.lit 5 10) = true
  \/ (agl st <? flow_min_agl) = true
  \/ (quality (_sub_flow st) <? _flow_min_q st) = true
  \/ _validTZ st = false
  \/ (dt_flow st >? F32.lit 5 10) = true
  \/ (dt_flow st <? F32.lit 1 1000000) = true ->
  flowMeasure st = (st, None).
Proof.
  unfold flowMeasure.
  intros H.
  repeat match goal with
         | |- context [if ?b then _ else _] =>
             let E := fresh "E" in destruct b eqn:E; [reflexivity|]
         end.
  exfalso.
  apply orb_false_elim in E as [? ?].
  apply orb_false_elim in E3 as [? ?].
  apply negb_false_iff in E2.
  repeat destruct H as [H|H]; congruence.
Qed.

(** When no check fires the sample is accepted. *)
Lemma flowMeasure_pass st :
  (roll (_sub_att st) >? F32.lit 5 10) = false ->
  (pitch (_sub_att st) >? F32.lit 5 10) = false ->
  (agl st <? flow_min_agl) = false ->
  (quality (_sub_flow st) <? _flow_min_q st) = false ->
  _validTZ st = true ->
  (dt_flow st >? F32.lit 5 10) = false ->
  (dt_flow st <? F32.lit 1 1000000) = false ->
  exists st1 y, flowMeasure st = (st1, Some y).
Proof.
  intros H1 H2 H3 H4 H5 H6 H7.
  unfold flowMeasure.
  rewrite H1, H2, H3, H4, H5, H6, H7. cbn [orb negb].
  repeat match goal with
         | |- context [if ?b then _ else _] => destruct b
         | |- context [hp_update ?h ?u] => destruct (hp_update h u)
         end; eauto.
Qed.

End MeasureFacts.

(** ** The correction step *)

Section CorrectFacts.

Context {HP : Type} {env : Collaborators HP}.
Implicit Types st : lpe HP.

Local Open Scope f32_scope.

(** The fault detection writes the fault level only. *)
Lemma flow_fault_detect_frame beta st :
  _x (flow_fault_detect beta st) = _x st
  /\ _P (flow_fault_detect beta st) = _P st
  /\ _pub_innov (flow_fault_detect beta st) = _pub_innov st
  /\ _flowQStats (flow_fault_detect beta st) = _flowQStats st.
Proof.
  unfold flow_fault_detect.
  repeat match goal with
         | |- context [if ?b then _ else _] => destruct b
         end; cbn; auto.
Qed.

(** The level it leaves, by the outcome of the test. *)
Lemma flow_fault_detect_level beta st :
  _flowFault (flow_fault_detect beta st)
  = if beta >? BETA_TABLE n_y_flow
    then N.max (_flowFault st) FAULT_MINOR
    else FAULT_NONE.
Proof.
  unfold flow_fault_detect, FAULT_MINOR, FAULT_NONE.
  destruct (beta >? BETA_TABLE n_y_flow).
  - destruct (N.ltb_spec (_flowFault st) 1); cbn; lia.
  - destruct (N.eqb_spec (_flowFault st) 0); cbn; congruence.
Qed.

(** The Kalman update writes the state vector and the covariance only. *)
Lemma flow_kalman_update_frame r S_I st :
  _flowFault (flow_kalman_update r S_I st) = _flowFault st
  /\ _pub_innov (flow_kalman_update r S_I st) = _pub_innov st
  /\ _flowQStats (flow_kalman_update r S_I st) = _flowQStats st.
Proof. cbn. auto. Qed.

(** The two diagonal entries of the noise matrix. *)
Lemma flow_R_diag st :
  mget (flow_R st) 0 0 = flow_vxy_stddev st * flow_vxy_stddev st
  /\ mget (flow_R st) 1 1 = flow_vxy_stddev st * flow_vxy_stddev st.
Proof. split; reflexivity. Qed.

(** [flowCorrect] after a successful measurement, step by step. *)
Lemma flowCorrect_Some st st1 y :
  flowMeasure st = (st1, Some y) ->
  let R := flow_R st1 in
  let r := flow_residual st y in
  let st2 :=
    set_pub_innov {| flow_innov := (mget r 0 0, mget r 1 0);
                     flow_innov_var := (mget R 0 0, mget R 1 1) |} st1 in
  let S_I := inv (flow_S (_P st) R) in
  let st3 := flow_fault_detect (flow_beta r S_I) st2 in
  flowCorrect st
  = if (_flowFault st3 <? fault_lvl_disable)%N
    then flow_kalman_update r S_I st3
    else st3.
Proof.
  intros E. unfold flowCorrect. rewrite E.
  destruct (flowMeasure_Some _ _ _ E) as (_ & _ & Ex & EP & _).
  unfold flow_residual. cbn [_P set_pub_innov]. rewrite Ex, EP.
  reflexivity.
Qed.

(** What [flowCorrect] publishes after a successful measurement. *)
Lemma flowCorrect_pub_innov st st1 y :
  flowMeasure st = (st1, Some y) ->
  let r := flow_residual st y in
  _pub_innov (flowCorrect st)
  = {| flow_innov := (mget r 0 0, mget r 1 0);
       flow_innov_var := (mget (flow_R st1) 0 0, mget (flow_R st1) 1 1) |}.
Proof.
  intros E r.
  rewrite (flowCorrect_Some _ _ _ E).
  match goal with
  | |- context [if ?b then _ else _] => destruct b
  end.
  - rewrite (proj1 (proj2 (flow_kalman_update_frame _ _ _))).
    rewrite (proj1 (proj2 (proj2 (flow_fault_detect_frame _ _)))).
    reflexivity.
  - rewrite (proj1 (proj2 (proj2 (flow_fault_detect_frame _ _)))).
    reflexivity.
Qed.

Lemma flowCorrect_None st :
  snd (flowMeasure st) = None -> flowCorrect st = st.
Proof.
  unfold flowCorrect.
  destruct (flowMeasure st) as [st1 [y|]] eqn:E; [discriminate|].
  intros _. exact (flowMeasure_None _ _ E).
Qed.

End CorrectFacts.

(** ** Properties of the specification *)

Section Claims.

Context {HP : Type} {env : Collaborators HP}.
Implicit Types st : lpe HP.

Local Open Scope f32_scope.

(** C1, on the code.  After a successful measurement [flowCorrect]
    publishes, for each axis, the residual [r = y - C x] and, as its
    variance, the square of the standard deviation of the cycle,
    [base + range d + rate |rates|], which is the diagonal entry of the
    noise matrix [R]: the covariance [P] does not enter what is
    published, and the diagonal of [S = C P C^T + R] is not what is
    published.  No condition on the fault level: the same is written
    whether or not the correction is suppressed. *)
Theorem flowCorrect_publishes_innovation st st1 y :
  flowMeasure st = (st1, Some y) ->
  let r := msub n_y_flow 1 y (mmul n_y_flow n_x 1 flow_C (_x st)) in
  let a := _sub_att st1 in
  let d := agl st1 * cosf (roll a) * cosf (pitch a) in
  let rates := F32.sqrtf (rollspeed a * rollspeed a
                          + pitchspeed a * pitchspeed a
                          + yawspeed a * yawspeed a) in
  let s := _flow_vxy_stddev st1
           + _flow_vxy_d_stddev st1 * d
           + _flow_vxy_r_stddev st1 * rates in
  _pub_innov (flowCorrect st)
  = {| flow_innov := (mget r 0 0, mget r 1 0);
       flow_innov_var := (s * s, s * s) |}
  /\ mget (flow_R st1) 0 0 = s * s
  /\ mget (flow_R st1) 1 1 = s * s.
Proof.
  intros E r a d rates s. split; [|split; reflexivity].
  rewrite (flowCorrect_pub_innov _ _ _ E).
  destruct (flow_R_diag st1) as [-> ->]. reflexivity.
Qed.

(** C3.  After a successful measurement that leaves the fault level at
    or above the disable level, the state vector and the covariance are
    what they were before the call, and the residual and its variance
    have been published all the same. *)
Theorem flowCorrect_suppressed st st1 y :
  flowMeasure st = (st1, Some y) ->
  (fault_lvl_disable <= _flowFault (flowCorrect st))%N ->
  let r := flow_residual st y in
  _x (flowCorrect st) = _x st
  /\ _P (flowCorrect st) = _P st
  /\ _pub_innov (flowCorrect st)
     = {| flow_innov := (mget r 0 0, mget r 1 0);
          flow_innov_var :=
            (mget (flow_R st1) 0 0, mget (flow_R st1) 1 1) |}.
Proof.
  intros E Hlvl r.
  split; [|split; [|apply (flowCorrect_pub_innov _ _ _ E)]];
    revert Hlvl; rewrite (flowCorrect_Some _ _ _ E);
    destruct (flowMeasure_Some _ _ _ E) as (_ & _ & Ex & EP & _);
    match goal with
    | |- context [if (?a <? ?b)%N then _ else _] =>
        destruct (N.ltb_spec a b) as [Hlt|Hge]
    end.
  - rewrite (proj1 (flow_kalman_update_frame _ _ _)). lia.
  - intros _. rewrite (proj1 (flow_fault_detect_frame _ _)). exact Ex.
  - rewrite (proj1 (flow_kalman_update_frame _ _ _)). lia.
  - intros _. rewrite (proj1 (proj2 (flow_fault_detect_frame _ _))).
    exact EP.
Qed.

(** The frame of a rejected sample.  When one of the checks of the
    measurement fires (roll or pitch
    above the bound, height above ground below 0.3, quality below the
    minimum, height not valid, integration span above 0.5 s or below
    1e-6 s) [flowCorrect] returns the estimator unchanged, the state
    vector and the covariance in particular. *)
Theorem flowCorrect_rejected_frame st :
  (roll (_sub_att st) >? F32.lit 5 10) = true
  \/ (pitch (_sub_att st) >? F32.lit 5 10) = true
  \/ (agl st <? flow_min_agl) = true
  \/ (quality (_sub_flow st) <? _flow_min_q st) = true
  \/ _validTZ st = false
  \/ (dt_flow st >? F32.lit 5 10) = true
  \/ (dt_flow st <? F32.lit 1 1000000) = true ->
  flowCorrect st = st
  /\ _x (flowCorrect st) = _x st
  /\ _P (flowCorrect st) = _P st.
Proof.
  intros H.
  assert (E : flowCorrect st = st).
  { apply flowCorrect_None. now rewrite (flowMeasure_gate _ H). }
  rewrite E. auto.
Qed.

(** C4, on the code.  A roll or pitch below -0.5 rad is beyond the
    attitude bound in magnitude and yet passes the attitude test: with
    the other angle not above 0.5 rad, every other test passing, the
    disable level above MINOR and the fault level below it, the sample is
    accepted and [flowCorrect] runs the Kalman update, which writes the
    state vector and the covariance. *)
Theorem flowCorrect_corrects_negative_attitude st :
  ((roll (_sub_att st) <? - F32.lit 5 10) = true
   /\ (pitch (_sub_att st) >? F32.lit 5 10) = false)
  \/ ((pitch (_sub_att st) <? - F32.lit 5 10) = true
      /\ (roll (_sub_att st) >? F32.lit 5 10) = false) ->
  (agl st <? flow_min_agl) = false ->
  (quality (_sub_flow st) <? _flow_min_q st) = false ->
  _validTZ st = true ->
  (dt_flow st >? F32.lit 5 10) = false ->
  (dt_flow st <? F32.lit 1 1000000) = false ->
  (FAULT_MINOR < fault_lvl_disable)%N ->
  (_flowFault st < fault_lvl_disable)%N ->
  exists st1 y,
    flowMeasure st = (st1, Some y)
    /\ let r := flow_residual st y in
       let S_I := inv (flow_S (_P st) (flow_R st1)) in
       let st3 :=
         flow_fault_detect (flow_beta r S_I)
           (set_pub_innov
              {| flow_innov := (mget r 0 0, mget r 1 0);
                 flow_innov_var :=
                   (mget (flow_R st1) 0 0, mget (flow_R st1) 1 1) |} st1) in
       let K := mmul n_x n_y_flow n_y_flow
                  (mmul n_x n_x n_y_flow (_P st)
                     (transpose n_y_flow n_x flow_C))
                  S_I in
       let dx := correctionLogic st3 (mmul n_x n_y_flow 1 K r) in
       flowCorrect st = flow_kalman_update r S_I st3
       /\ _x (flowCorrect st) = madd n_x 1 (_x st) dx
       /\ _P (flowCorrect st)
          = msub n_x n_x (_P st)
              (mmul n_x n_x n_x (mmul n_x n_y_flow n_x K flow_C) (_P st)).
Proof.
  intros Hatt H3 H4 H5 H6 H7 Hd Hf.
  assert (Hacc : exists st1 y, flowMeasure st = (st1, Some y)).
  { destruct Hatt as [[Hr Hp]|[Hp Hr]];
      apply flowMeasure_pass; auto using ltb_neg_half. }
  destruct Hacc as (st1 & y & E). exists st1, y. split; [exact E|].
  intros r S_I st3 K dx.
  destruct (flowMeasure_Some _ _ _ E) as (_ & _ & Ex & EP & _ & Ef & _).
  pose proof (flowCorrect_Some _ _ _ E) as Hc. cbv zeta in Hc.
  fold r S_I st3 in Hc.
  assert (Hl : (_flowFault st3 < fault_lvl_disable)%N).
  { unfold st3. rewrite flow_fault_detect_level.
    cbn [_flowFault set_pub_innov]. rewrite Ef.
    unfold FAULT_MINOR, FAULT_NONE in *.
    destruct (flow_beta r S_I >? BETA_TABLE n_y_flow); lia. }
  apply N.ltb_lt in Hl. rewrite Hl in Hc.
  assert (Ex3 : _x st3 = _x st /\ _P st3 = _P st).
  { unfold st3.
    rewrite (proj1 (flow_fault_detect_frame _ _)),
      (proj1 (proj2 (flow_fault_detect_frame _ _))).
    cbn [_x _P set_pub_innov]. auto. }
  destruct Ex3 as [Ex3 EP3].
  split; [exact Hc|]. rewrite Hc. unfold flow_kalman_update.
  cbn [_x _P set_x set_P]. rewrite Ex3, EP3. auto.
Qed.

(** C5.  A cycle of [flowInit] on a module not yet initialized, with a
    successful measurement: the count after the measurement is one more
    than before; the module is initialized after the cycle exactly when
    that count exceeds 10 (at 10 it is not, at 11 it is), and whenever
    it is, the fault level is NONE and the information message has been
    logged. *)
Theorem flowInit_transition st st1 y :
  flowMeasure st = (st1, Some y) ->
  _flowInitialized st = false ->
  let c := BlockStats.getCount (_flowQStats st1) in
  c = (BlockStats.getCount (_flowQStats st) + 1)%N
  /\ (_flowInitialized (flowInit st) = true <-> (10 < c)%N)
  /\ (c = 10%N -> _flowInitialized (flowInit st) = false)
  /\ (c = 11%N -> _flowInitialized (flowInit st) = true)
  /\ ((10 < c)%N ->
      _flowFault (flowInit st) = FAULT_NONE
      /\ mavlink_log (flowInit st)
         = mavlink_log st ++ [log_info_flow_init]).
Proof.
  intros E Hinit c.
  destruct (flowMeasure_Some _ _ _ E)
    as (_ & EQ & _ & _ & _ & _ & Ei & El & _).
  assert (Hc : c = (BlockStats.getCount (_flowQStats st) + 1)%N).
  { unfold c. rewrite EQ. reflexivity. }
  split; [exact Hc|].
  unfold flowInit. rewrite E. fold c. unfold REQ_FLOW_INIT_COUNT.
  destruct (N.ltb_spec 10 c) as [Hlt|Hge]; cbn.
  - repeat split; auto; try lia. now rewrite El.
  - rewrite Ei, Hinit. repeat split; try discriminate; try lia.
Qed.

(** C6.  The fault level after a [flowCorrect] with a successful
    measurement, by the test of [beta = r^T S^-1 r] against the
    threshold at the dimension of the observation: when [beta] exceeds
    it, the level is the larger of the level before and MINOR; when it
    does not, the level is NONE; from NONE the level never ends above
    MINOR. *)
Theorem flowCorrect_fault_hysteresis st st1 y :
  flowMeasure st = (st1, Some y) ->
  let r := flow_residual st y in
  let beta := flow_beta r (inv (flow_S (_P st) (flow_R st1))) in
  ((beta >? BETA_TABLE n_y_flow) = true ->
   _flowFault (flowCorrect st) = N.max (_flowFault st) FAULT_MINOR)
  /\ ((beta >? BETA_TABLE n_y_flow) = false ->
      _flowFault (flowCorrect st) = FAULT_NONE)
  /\ (_flowFault st = FAULT_NONE ->
      (_flowFault (flowCorrect st) <= FAULT_MINOR)%N).
Proof.
  intros E r beta.
  destruct (flowMeasure_Some _ _ _ E) as (_ & _ & _ & _ & _ & Ef & _).
  assert (Hl : _flowFault (flowCorrect st)
               = if beta >? BETA_TABLE n_y_flow
                 then N.max (_flowFault st) FAULT_MINOR
                 else FAULT_NONE).
  { rewrite (flowCorrect_Some _ _ _ E).
    match goal with
    | |- context [if (?a <? ?b)%N then _ else _] => destruct (a <? b)%N
    end;
      [rewrite (proj1 (flow_kalman_update_frame _ _ _))|];
      rewrite flow_fault_detect_level; cbn [_flowFault set_pub_innov];
      rewrite Ef; reflexivity. }
  rewrite Hl. unfold FAULT_MINOR, FAULT_NONE.
  destruct (beta >? BETA_TABLE n_y_flow);
    repeat split; intros; try discriminate; lia.
Qed.

(** C7.  A timeout check more than 1,000,000 microseconds after the
    last accepted measurement (the difference of the two 64-bit
    timestamps).  On an initialized module it does what [flowDeinit]
    does (the module is no longer initialized, the quality statistics
    are reset) and logs the critical message; on a module that is not
    initialized it changes nothing and logs nothing. *)
Theorem flowCheckTimeout_elapsed st :
  (FLOW_TIMEOUT < sub_u64 (_timeStamp st) (_time_last_flow st))%Z ->
  (_flowInitialized st = true ->
   flowCheckTimeout st
   = set_mavlink_log (mavlink_log st ++ [log_critical_flow_timeout])
       (flowDeinit st)
   /\ _flowInitialized (flowCheckTimeout st) = false
   /\ _flowQStats (flowCheckTimeout st)
      = BlockStats.reset (_flowQStats st)
   /\ mavlink_log (flowCheckTimeout st)
      = mavlink_log st ++ [log_critical_flow_timeout])
  /\ (_flowInitialized st = false -> flowCheckTimeout st = st).
Proof.
  intros Hlate. unfold flowCheckTimeout.
  destruct (Z.ltb_spec FLOW_TIMEOUT
              (sub_u64 (_timeStamp st) (_time_last_flow st))); [|lia].
  split; intros ->; cbn; auto.
Qed.

(** C10.  The quality statistics.  A successful [flowMeasure] folds the
    quality of the sample into them, which adds one to the count, and
    so do [flowCorrect] and [flowInit] through it, whatever the
    initialization flag says.  On a rejected measurement [flowCorrect]
    leaves them as they are and [flowInit] resets them; [flowDeinit]
    resets them. *)
Theorem flowQStats_accumulate st :
  (forall st1 y,
      flowMeasure st = (st1, Some y) ->
      let q := BlockStats.update (quality (_sub_flow st)) (_flowQStats st) in
      _flowQStats st1 = q
      /\ _flowQStats (flowCorrect st) = q
      /\ _flowQStats (flowInit st) = q
      /\ BlockStats.getCount q
         = (BlockStats.getCount (_flowQStats st) + 1)%N)
  /\ (snd (flowMeasure st) = None ->
      _flowQStats (flowCorrect st) = _flowQStats st
      /\ _flowQStats (flowInit st) = BlockStats.reset (_flowQStats st))
  /\ _flowQStats (flowDeinit st) = BlockStats.reset (_flowQStats st)
  /\ BlockStats.getCount (BlockStats.reset (_flowQStats st)) = 0%N.
Proof.
  split; [|split; [|split; reflexivity]].
  - intros st1 y E q.
    destruct (flowMeasure_Some _ _ _ E) as (_ & EQ & _).
    repeat split; [exact EQ| |].
    + rewrite (flowCorrect_Some _ _ _ E).
      match goal with
      | |- context [if ?b then _ else _] => destruct b
      end;
        [rewrite (proj2 (proj2 (flow_kalman_update_frame _ _ _)))|];
        rewrite (proj2 (proj2 (proj2 (flow_fault_detect_frame _ _))));
        exact EQ.
    + unfold flowInit. rewrite E.
      match goal with
      | |- context [if ?b then _ else _] => destruct b
      end; exact EQ.
  - intros E. split.
    + now rewrite (flowCorrect_None _ E).
    + unfold flowInit.
      destruct (flowMeasure st) as [st1 [y|]] eqn:E1; [discriminate|].
      rewrite (flowMeasure_None _ _ E1). reflexivity.
Qed.

(** C2, on the code.  A sample whose roll or pitch is below -0.5 rad,
    the other angle not above 0.5 rad and every other check passing, is
    accepted: the bound is tested on the signed angles, not on their
    magnitudes. *)
Theorem flowMeasure_accepts_negative_attitude st :
  ((roll (_sub_att st) <? - F32.lit 5 10) = true
   /\ (pitch (_sub_att st) >? F32.lit 5 10) = false)
  \/ ((pitch (_sub_att st) <? - F32.lit 5 10) = true
      /\ (roll (_sub_att st) >? F32.lit 5 10) = false) ->
  (agl st <? flow_min_agl) = false ->
  (quality (_sub_flow st) <? _flow_min_q st) = false ->
  _validTZ st = true ->
  (dt_flow st >? F32.lit 5 10) = false ->
  (dt_flow st <? F32.lit 1 1000000) = false ->
  exists st1 y, flowMeasure st = (st1, Some y).
Proof.
  intros [[Hr Hp]|[Hp Hr]] H3 H4 H5 H6 H7;
    apply flowMeasure_pass; auto using ltb_neg_half.
Qed.

(** C8.  The scenario: height above ground 1, roll and pitch zero (with
    [cosf 0 = 1]), identity rotation, quality above the minimum, height
    valid, integration span 10000 microseconds, flow angle 0.01 rad on
    x and any finite angle on y, gyro compensation off.  The sample is
    accepted and the x velocity observed is -1. *)
Theorem flowMeasure_scenario st :
  cosf F32.zero = F32.one ->
  agl st = F32.one ->
  roll (_sub_att st) = F32.zero ->
  pitch (_sub_att st) = F32.zero ->
  R (_sub_att st) = identity3 ->
  (_flow_min_q st <? quality (_sub_flow st)) = true ->
  _validTZ st = true ->
  integration_timespan (_sub_flow st) = 10000%Z ->
  pixel_flow_x_integral (_sub_flow st) = F32.lit 1 100 ->
  F32.finite (pixel_flow_y_integral (_sub_flow st)) = true ->
  _flow_gyro_comp st = 0%Z ->
  exists st1 y,
    flowMeasure st = (st1, Some y) /\ mget y Y_flow_vx 0 = - F32.one.
Proof.
  intros Hcos Hagl Hroll Hpitch HR Hq Hv Hspan Hfx Hfy Hcomp.
  destruct (body_axis_finite _ Hfy) as (b & Hb & Hfin).
  unfold flowMeasure, flow_d, dt_flow.
  rewrite Hcomp, Hroll, Hpitch, Hagl, Hv, Hspan, Hfx, Hcos,
    (ltb_asym _ _ Hq).
  change (F32.one * F32.one * F32.one) with F32.one.
  change (F32.zero >? F32.lit 5 10) with false.
  change (F32.one <? flow_min_agl) with false.
  change (negb (0 =? 0)%Z) with false.
  change (negb true) with false.
  cbv beta iota zeta.
  change ((F32.of_Z 10000 / F32.of_Z 1000000 >? F32.lit 5 10)
          || (F32.of_Z 10000 / F32.of_Z 1000000 <? F32.lit 1 1000000))
    with false.
  cbv beta iota.
  rewrite HR, Hb.
  eexists _, _. split; [reflexivity|].
  destruct b as [sb| | |sb mb eb]; try contradiction;
    vm_compute; reflexivity.
Qed.

(** C9, as amended.  Both diagonal entries of the noise matrix are the
    square of [s = base + range d + rate |rates|]; this square never
    compares below zero, and it is above zero whenever [s] is a
    well-formed value, infinite or finite, of magnitude [2^-74] or
    more. *)
Theorem flow_R_diagonal_sign st :
  let s := flow_vxy_stddev st in
  mget (flow_R st) 0 0 = s * s
  /\ mget (flow_R st) 1 1 = s * s
  /\ (s * s <? F32.zero) = false
  /\ (valid_binary F32.prec F32.emax s = true ->
      SFleb F32.sq_safe (SFabs s) = true ->
      (F32.zero <? mget (flow_R st) 0 0) = true
      /\ (F32.zero <? mget (flow_R st) 1 1) = true).
Proof.
  intros s. destruct (flow_R_diag st) as [E0 E1].
  repeat split; auto using sq_not_negative;
    rewrite ?E0, ?E1; now apply sq_positive.
Qed.

End Claims.

(** ** The properties on the reference configuration *)

Section Instances.

Local Open Scope f32_scope.

(** With a noise model of 0.1 + 0.05 d + 0.02 |rates| at a distance of 1
    and rates of 0.5 rad/s, the cycle publishes the residual [(-1, 0)]
    and, on both axes, the variance 0.16 squared, about 0.0256, while the
    diagonal of [S = C P C^T + R] is about 0.0356. *)
Lemma noisy_publishes_R :
  _pub_innov (flowCorrect RefCases.noisy)
  = {| flow_innov := (- F32.one, F32.zero);
       flow_innov_var := (S754_finite false 13743897 (-29),
                          S754_finite false 13743897 (-29)) |}
  /\ mget (flow_S (_P RefCases.noisy)
             (flow_R (fst (flowMeasure RefCases.noisy)))) 0 0
     = S754_finite false 9556303 (-28)
  /\ mget (flow_S (_P RefCases.noisy)
             (flow_R (fst (flowMeasure RefCases.noisy)))) 1 1
     = S754_finite false 9556303 (-28)
  /\ (S754_finite false 13743897 (-29) <? S754_finite false 9556303 (-28))
     = true.
Proof.
  destruct (flowCorrect_publishes_innovation RefCases.noisy
              (fst (flowMeasure RefCases.noisy)) [[- F32.one]; [F32.zero]])
    as [H _].
  - vm_compute. reflexivity.
  - rewrite H. vm_compute. auto.
Defined.

(** The same on the nominal cycle: the measurement succeeds, the variance
    published on each axis is the entry of [R], about 0.01, and the
    diagonal of [S = C P C^T + R] is about 0.02. *)
Lemma nominal_variance_is_not_S :
  snd (flowMeasure Ref.nominal) = Some [[- F32.one]; [F32.zero]]
  /\ flow_innov_var (_pub_innov (flowCorrect Ref.nominal))
     = (S754_finite false 10737419 (-30), S754_finite false 10737419 (-30))
  /\ mget (flow_S (_P Ref.nominal)
             (flow_R (fst (flowMeasure Ref.nominal)))) 0 0
     = S754_finite false 10737418 (-29)
  /\ mget (flow_S (_P Ref.nominal)
             (flow_R (fst (flowMeasure Ref.nominal)))) 1 1
     = S754_finite false 10737418 (-29)
  /\ (fst (flow_innov_var (_pub_innov (flowCorrect Ref.nominal)))
      <? mget (flow_S (_P Ref.nominal)
                 (flow_R (fst (flowMeasure Ref.nominal)))) 0 0) = true.
Proof. vm_compute. repeat split; reflexivity. Qed.

(** A roll of -1 rad is accepted. *)
Lemma negative_roll_accepted :
  exists st1 y, flowMeasure Ref.negative_roll = (st1, Some y).
Proof.
  apply (flowMeasure_accepts_negative_attitude Ref.negative_roll);
    try (left; split); vm_compute; reflexivity.
Defined.

(** With the fault level at the disable level and a residual far from
    the prediction, the state and the covariance stay and the telemetry
    is written. *)
Lemma disabled_suppressed :
  _x (flowCorrect Ref.disabled) = _x Ref.disabled
  /\ _P (flowCorrect Ref.disabled) = _P Ref.disabled
  /\ _pub_innov (flowCorrect Ref.disabled)
     = {| flow_innov := (- F32.one, F32.zero);
          flow_innov_var := (S754_finite false 10737419 (-30),
                             S754_finite false 10737419 (-30)) |}.
Proof.
  destruct (flowCorrect_suppressed Ref.disabled
              (fst (flowMeasure Ref.disabled)) [[- F32.one]; [F32.zero]])
    as (Hx & HP & Hi).
  - vm_compute. reflexivity.
  - vm_compute. discriminate.
  - rewrite Hi. repeat split; auto.
Defined.

(** At a height of 0.2 nothing changes. *)
Lemma too_low_rejected :
  flowCorrect Ref.too_low = Ref.too_low
  /\ _x (flowCorrect Ref.too_low) = _x Ref.too_low
  /\ _P (flowCorrect Ref.too_low) = _P Ref.too_low.
Proof.
  apply (flowCorrect_rejected_frame Ref.too_low).
  right. right. left. vm_compute. reflexivity.
Defined.

(** A roll of -1 rad: the sample is accepted and the correction changes
    the x velocity of the state from 0 to about -0.27 and its variance
    from about 0.01 to about 0.005. *)
Lemma negative_roll_corrected :
  (exists st1 y, flowMeasure Ref.negative_roll = (st1, Some y))
  /\ (F32.lit 5 10 <? SFabs (roll (_sub_att Ref.negative_roll))) = true
  /\ mget (_x Ref.negative_roll) 3 0 = F32.zero
  /\ mget (_x (flowCorrect Ref.negative_roll)) 3 0
     = S754_finite true 9087659 (-25)
  /\ mget (_P Ref.negative_roll) 3 3 = S754_finite false 10737418 (-30)
  /\ mget (_P (flowCorrect Ref.negative_roll)) 3 3
     = S754_finite false 10737418 (-31).
Proof.
  split; [|vm_compute; auto 10].
  destruct (flowCorrect_corrects_negative_attitude Ref.negative_roll)
    as (st1 & y & E & _);
    [left; split; vm_compute; reflexivity
    |vm_compute; reflexivity ..
    |eauto].
Defined.

(** The eleventh consecutive success initializes the module. *)
Lemma initializing_eleventh :
  _flowInitialized (flowInit Ref.initializing) = true.
Proof.
  destruct (flowInit_transition Ref.initializing
              (fst (flowMeasure Ref.initializing))
              [[- F32.one]; [F32.zero]])
    as (_ & _ & _ & H & _).
  - vm_compute. reflexivity.
  - reflexivity.
  - apply H. vm_compute. reflexivity.
Defined.

(** The nominal cycle exceeds the threshold and raises NONE to MINOR. *)
Lemma nominal_fault_raised :
  _flowFault (flowCorrect Ref.nominal) = FAULT_MINOR.
Proof.
  destruct (flowCorrect_fault_hysteresis Ref.nominal
              (fst (flowMeasure Ref.nominal)) [[- F32.one]; [F32.zero]])
    as (H & _).
  - vm_compute. reflexivity.
  - rewrite H; vm_compute; reflexivity.
Defined.

(** Four seconds without a measurement: an initialized module is
    deinitialized with one critical message, another one is left
    alone. *)
Lemma timed_out_deinit :
  _flowInitialized (flowCheckTimeout (Ref.timed_out true)) = false
  /\ mavlink_log (flowCheckTimeout (Ref.timed_out true))
     = [log_critical_flow_timeout]
  /\ flowCheckTimeout (Ref.timed_out false) = Ref.timed_out false.
Proof.
  destruct (flowCheckTimeout_elapsed (Ref.timed_out true))
    as [H _]; [vm_compute; reflexivity|].
  destruct (H eq_refl) as (_ & Hi & _ & Hl).
  destruct (flowCheckTimeout_elapsed (Ref.timed_out false))
    as [_ H']; [vm_compute; reflexivity|].
  split; [exact Hi|split; [exact Hl|exact (H' eq_refl)]].
Defined.

(** The scenario itself. *)
Lemma nominal_scenario :
  exists st1 y,
    flowMeasure Ref.nominal = (st1, Some y)
    /\ mget y Y_flow_vx 0 = - F32.one.
Proof.
  apply (flowMeasure_scenario Ref.nominal); vm_compute; reflexivity.
Defined.

(** With a standard deviation of 0.1 the noise variance is above
    zero. *)
Lemma nominal_R_positive :
  (F32.zero <? mget (flow_R Ref.nominal) 0 0) = true
  /\ (F32.zero <? mget (flow_R Ref.nominal) 1 1) = true.
Proof.
  apply (flow_R_diagonal_sign Ref.nominal); vm_compute; reflexivity.
Defined.

(** C9 as stated fails with a base standard deviation of [2^-100] and
    the two coefficients at zero: the measurement succeeds, the fault
    level stays below the disable level and the state is corrected,
    with both diagonal entries of [R] at zero. *)
Lemma tiny_stddev_R_zero :
  (F32.zero <? _flow_vxy_stddev Ref.tiny_stddev) = true
  /\ snd (flowMeasure Ref.tiny_stddev) = Some [[- F32.one]; [F32.zero]]
  /\ (_flowFault (flowCorrect Ref.tiny_stddev) <? fault_lvl_disable)%N
     = true
  /\ mget (_x Ref.tiny_stddev) X_vx 0 = F32.zero
  /\ mget (_x (flowCorrect Ref.tiny_stddev)) X_vx 0 = - F32.one
  /\ flow_vxy_stddev (fst (flowMeasure Ref.tiny_stddev))
     = S754_finite false 8388608 (-123)
  /\ mget (flow_R (fst (flowMeasure Ref.tiny_stddev))) 0 0 = F32.zero
  /\ mget (flow_R (fst (flowMeasure Ref.tiny_stddev))) 1 1 = F32.zero
  /\ (F32.zero <? mget (flow_R (fst (flowMeasure Ref.tiny_stddev))) 0 0)
     = false.
Proof. vm_compute. repeat split; reflexivity. Qed.

(** The nominal cycle counts one more sample, initialized as it is. *)
Lemma nominal_counts :
  _flowInitialized Ref.nominal = true
  /\ BlockStats.getCount (_flowQStats (flowCorrect Ref.nominal)) = 11%N.
Proof.
  split; [reflexivity|].
  destruct (proj1 (flowQStats_accumulate Ref.nominal)
              (fst (flowMeasure Ref.nominal)) [[- F32.one]; [F32.zero]])
    as (_ & H & _).
  - vm_compute. reflexivity.
  - rewrite H. vm_compute. reflexivity.
Defined.

End Instances.

(** ** Further facts of binary32 arithmetic, lists and matrices *)

Section MoreFacts.

Local Open Scope f32_scope.

Lemma mul_nan_r (a : float) : a * S754_nan = S754_nan.
Proof. destruct a; reflexivity. Qed.

Lemma gtb_nan_l (a : float) : (S754_nan >? a) = false.
Proof. destruct a; reflexivity. Qed.

Lemma shr_fexp_nonneg (m e : Z) (l : location) :
  (0 <= m)%Z ->
  (0 <= shr_m (fst (shr_fexp F32.prec F32.emax m e l)))%Z.
Proof.
  intros Hm. unfold shr_fexp.
  assert (H0 : shr_m (shr_record_of_loc m l) = m)
    by (destruct l as [|[]]; reflexivity).
  destruct (fexp F32.prec F32.emax (Zdigits2 m + e) - e)%Z as [|n|n];
    cbn [shr fst]; rewrite ?H0; try exact Hm.
  rewrite iter_shr_1_m by (now rewrite H0). rewrite H0.
  apply Z.div_pos; [exact Hm|]. apply Z.pow_pos_nonneg; lia.
Qed.

Lemma round_nearest_even_nonneg (m : Z) (l : location) :
  (0 <= m)%Z -> (0 <= round_nearest_even m l)%Z.
Proof.
  intros Hm. destruct l as [|[]]; cbn [round_nearest_even];
    try destruct (Z.even m); lia.
Qed.

(** Rounding a mantissa that is not negative never gives NaN. *)
Lemma binary_round_aux_not_nan (sx : bool) (mx ex : Z) (lx : location) :
  (0 <= mx)%Z ->
  binary_round_aux F32.prec F32.emax sx mx ex lx <> S754_nan.
Proof.
  intros Hm. unfold binary_round_aux.
  pose proof (shr_fexp_nonneg mx ex lx Hm) as H1.
  destruct (shr_fexp F32.prec F32.emax mx ex lx) as [mrs' e'].
  cbn [fst] in H1.
  pose proof (round_nearest_even_nonneg _ (loc_of_shr_record mrs') H1) as H2.
  pose proof (shr_fexp_nonneg _ e' loc_Exact H2) as H3.
  destruct (shr_fexp F32.prec F32.emax _ e' loc_Exact) as [mrs'' e''].
  cbn [fst] in H3.
  destruct (shr_m mrs'') as [|p|p]; [discriminate| |lia].
  destruct (e'' <=? F32.emax - F32.prec)%Z; discriminate.
Qed.

(** The conversion of an integer is never NaN. *)
Lemma of_Z_not_nan (z : Z) : F32.of_Z z <> S754_nan.
Proof.
  unfold F32.of_Z, binary_normalize, binary_round.
  destruct z as [|p|p]; [discriminate| |];
    destruct (shl_align _ _ _) as [mz ez];
    now apply binary_round_aux_not_nan.
Qed.

(** A quotient by a finite value other than zero is NaN only when the
    dividend is. *)
Lemma div_finite_not_nan (a : float) (s : bool) (m : positive) (e : Z) :
  a <> S754_nan -> a / S754_finite s m e <> S754_nan.
Proof.
  destruct a as [sa|sa| |sa ma ea]; try discriminate; [congruence|].
  intros _. unfold F32.div, SFdiv, SFdiv_core_binary.
  match goal with
  | |- context [Z.div_eucl ?a ?b] =>
      pose proof (Z_div_mod a b eq_refl) as Hd;
      assert (Ha : (0 <= a)%Z);
      [|destruct (Z.div_eucl a b) as [q r]]
  end.
  - match goal with
    | |- (0 <= match ?s with _ => _ end)%Z => destruct s
    end; try lia. apply Z.shiftl_nonneg. lia.
  - apply binary_round_aux_not_nan. nia.
Qed.

(** Multiplication by one on the left is exact on well-formed values. *)
Lemma mul_one_l s m e :
  bounded F32.prec F32.emax m e = true ->
  F32.one * S754_finite s m e = S754_finite s m e.
Proof.
  intros Hb. unfold bounded, canonical_mantissa in Hb.
  apply andb_true_iff in Hb as [Hc He].
  apply Z.eqb_eq in Hc. apply Z.leb_le in He.
  change F32.one with (S754_finite false 8388608 (-23)).
  unfold F32.mul, SFmul. rewrite xorb_false_l.
  let t := eval lazy in (8388608 * m)%positive in
  change (8388608 * m)%positive with t.
  unfold binary_round_aux, shr_fexp.
  cbn [Zdigits2].
  cbn [digits2_pos].
  unfold fexp, emin, F32.prec, F32.emax in *.
  match goal with
  | |- context [shr ?r ?x ?n] => replace n with 23%Z by lia
  end.
  cbn [shr shr_record_of_loc].
  match goal with
  | |- context [SpecFloat.iter_pos shr_1 23 ?r] =>
      let t := eval lazy in (SpecFloat.iter_pos shr_1 23 r) in
      change (SpecFloat.iter_pos shr_1 23 r) with t
  end.
  cbn [loc_of_shr_record shr_m round_nearest_even Zdigits2].
  replace (-23 + e + 23)%Z with e by lia.
  match goal with
  | |- context [shr ?r ?x ?n] => replace n with 0%Z by lia
  end.
  cbn [shr shr_record_of_loc shr_m].
  destruct (Z.leb_spec e (128 - 24)); [reflexivity|lia].
Qed.

(** Zeros. *)
Lemma mul_finite_zero (a b : float) :
  F32.finite a = true -> is_zero b -> is_zero (a * b).
Proof.
  intros Ha [s ->]. destruct a as [sa| | |sa m e]; try discriminate;
    eexists; reflexivity.
Qed.

Lemma mul_zero_finite (a b : float) :
  is_zero a -> F32.finite b = true -> is_zero (a * b).
Proof.
  intros [s ->] Hb. destruct b as [sb| | |sb m e]; try discriminate;
    eexists; reflexivity.
Qed.

Lemma add_zero_zero (a b : float) :
  is_zero a -> is_zero b -> is_zero (a + b).
Proof. intros [s ->] [t ->]. destruct s, t; eexists; reflexivity. Qed.

Lemma axis_zero (a : float) : is_zero a -> is_zero (- (a - F32.zero)).
Proof. intros [s ->]. destruct s; eexists; reflexivity. Qed.

(** Sums that start at the positive zero. *)
Lemma zero_add_one_mul (a : float) :
  F32.finite a = true -> F32.zero + F32.one * a = F32.zero + a.
Proof.
  destruct a as [s| | |s m e]; try discriminate; intros Hb.
  - destruct s; reflexivity.
  - now rewrite mul_one_l.
Qed.

Lemma zero_add_mul_one (a : float) :
  F32.finite a = true -> F32.zero + a * F32.one = F32.zero + a.
Proof.
  destruct a as [s| | |s m e]; try discriminate; intros Hb.
  - destruct s; reflexivity.
  - now rewrite mul_one_r.
Qed.

Lemma settled_add_zero_mul (acc a : float) :
  settled acc -> F32.finite a = true -> acc + F32.zero * a = acc.
Proof.
  intros [->|(s & m & e & ->)] Ha;
    destruct a as [sa| | |sa ma ea]; try discriminate;
    try destruct sa; reflexivity.
Qed.

Lemma settled_add_mul_zero (acc a : float) :
  settled acc -> F32.finite a = true -> acc + a * F32.zero = acc.
Proof.
  intros [->|(s & m & e & ->)] Ha;
    destruct a as [sa| | |sa ma ea]; try discriminate;
    try destruct sa; reflexivity.
Qed.

Lemma settled_zero_add (a : float) :
  F32.finite a = true -> settled (F32.zero + a).
Proof.
  destruct a as [s| | |s m e]; try discriminate; intros _.
  - left. destruct s; reflexivity.
  - right. eauto.
Qed.

Lemma finite_zero_add (a : float) :
  F32.finite a = true -> F32.finite (F32.zero + a) = true.
Proof.
  destruct a as [s| | |s m e]; try discriminate; [destruct s|]; auto.
Qed.

Lemma zero_add_idem (a : float) :
  F32.finite a = true -> F32.zero + (F32.zero + a) = F32.zero + a.
Proof.
  destruct a as [s| | |s m e]; try discriminate; [destruct s|]; auto.
Qed.

(** A row that is zero along [js], against finite values. *)
Lemma foldl_select (c x : nat -> float) (js : list nat) (acc : float) :
  (forall j, j ∈ js -> c j = F32.zero /\ F32.finite (x j) = true) ->
  settled acc ->
  foldl (fun acc j => acc + c j * x j) acc js = acc.
Proof.
  revert acc. induction js as [|j js IH]; intros acc Hjs Hacc; [reflexivity|].
  cbn [foldl].
  destruct (Hjs j) as (Hc & Hx); [left|].
  rewrite Hc, settled_add_zero_mul by assumption.
  apply IH; [|exact Hacc]. intros j' Hj'. apply Hjs. now right.
Qed.

Lemma foldl_select_r (a c : nat -> float) (js : list nat) (acc : float) :
  (forall j, j ∈ js -> c j = F32.zero /\ F32.finite (a j) = true) ->
  settled acc ->
  foldl (fun acc j => acc + a j * c j) acc js = acc.
Proof.
  revert acc. induction js as [|j js IH]; intros acc Hjs Hacc; [reflexivity|].
  cbn [foldl].
  destruct (Hjs j) as (Hc & Hx); [left|].
  rewrite Hc, settled_add_mul_zero by assumption.
  apply IH; [|exact Hacc]. intros j' Hj'. apply Hjs. now right.
Qed.

(** The product of a row that is one at [k] and zero elsewhere with a
    column of finite values: the entry at [k], added to the positive zero
    the sum starts from. *)
Lemma select_row (c x : nat -> float) (k n : nat) :
  (k < n)%nat ->
  c k = F32.one ->
  (forall j, (j < n)%nat -> j <> k -> c j = F32.zero) ->
  (forall j, (j < n)%nat -> F32.finite (x j) = true) ->
  foldl (fun acc j => acc + c j * x j) F32.zero (seq 0 n) = F32.zero + x k.
Proof.
  intros Hk Hck Hc Hx.
  replace n with (k + S (n - S k))%nat by lia.
  rewrite seq_app, foldl_app. cbn [seq foldl Nat.add].
  rewrite (foldl_select c x (seq 0 k) F32.zero);
    [|intros j Hj; apply elem_of_seq in Hj;
      split; [apply Hc; lia|apply Hx; lia]
     |now left].
  rewrite Hck, zero_add_one_mul by (apply Hx; lia).
  apply foldl_select; [|apply settled_zero_add, Hx; lia].
  intros j Hj. apply elem_of_seq in Hj.
  split; [apply Hc; lia|apply Hx; lia].
Qed.

Lemma select_col (a c : nat -> float) (k n : nat) :
  (k < n)%nat ->
  c k = F32.one ->
  (forall j, (j < n)%nat -> j <> k -> c j = F32.zero) ->
  (forall j, (j < n)%nat -> F32.finite (a j) = true) ->
  foldl (fun acc j => acc + a j * c j) F32.zero (seq 0 n) = F32.zero + a k.
Proof.
  intros Hk Hck Hc Hx.
  replace n with (k + S (n - S k))%nat by lia.
  rewrite seq_app, foldl_app. cbn [seq foldl Nat.add].
  rewrite (foldl_select_r a c (seq 0 k) F32.zero);
    [|intros j Hj; apply elem_of_seq in Hj;
      split; [apply Hc; lia|apply Hx; lia]
     |now left].
  rewrite Hck, zero_add_mul_one by (apply Hx; lia).
  apply foldl_select_r; [|apply settled_zero_add, Hx; lia].
  intros j Hj. apply elem_of_seq in Hj.
  split; [apply Hc; lia|apply Hx; lia].
Qed.

(** Reading what was built and what was set. *)
Lemma mget_mbuild (m n : nat) (f : nat -> nat -> float) (i j : nat) :
  (i < m)%nat -> (j < n)%nat -> mget (mbuild m n f) i j = f i j.
Proof.
  intros Hi Hj. unfold mget, mbuild, Mat.
  rewrite list_lookup_fmap, lookup_seq_lt by exact Hi. cbn.
  rewrite list_lookup_fmap, lookup_seq_lt by exact Hj. reflexivity.
Qed.

Lemma mget_mmul (m n p : nat) (A B : Mat) (i k : nat) :
  (i < m)%nat -> (k < p)%nat ->
  mget (mmul m n p A B) i k
  = foldl (fun acc j => acc + mget A i j * mget B j k) F32.zero (seq 0 n).
Proof. intros Hi Hk. unfold mmul. now rewrite mget_mbuild. Qed.

Lemma mget_mset_row_ne (A : Mat) (i j i' j' : nat) (v : float) :
  i <> i' -> mget (mset i j v A) i' j' = mget A i' j'.
Proof.
  intros Hne. unfold mget, mset, Mat in *.
  now rewrite list_lookup_alter_ne.
Qed.

Lemma mget_mset_col_ne (A : Mat) (i j j' : nat) (v : float) :
  j <> j' -> mget (mset i j v A) i j' = mget A i j'.
Proof.
  intros Hne. unfold mget, mset, Mat in *.
  rewrite list_lookup_alter_eq.
  destruct (A !! i) as [row|]; [|reflexivity]. cbn.
  now rewrite list_lookup_insert_ne.
Qed.

Lemma mget_mset_mzero (m n i j : nat) (v : float) :
  (i < m)%nat -> (j < n)%nat -> mget (mset i j v (mzero m n)) i j = v.
Proof.
  intros Hi Hj. unfold mget, mset, mzero, mbuild, Mat in *.
  rewrite list_lookup_alter_eq, list_lookup_fmap, lookup_seq_lt by exact Hi.
  cbn. rewrite list_lookup_insert_eq; [reflexivity|].
  now rewrite length_fmap, length_seq.
Qed.

(** A rotation applied to a displacement that is NaN on its first two
    axes gives NaN on every axis. *)
Lemma rotate_nan (A : Mat) (c : float) (i : nat) :
  (i < 3)%nat ->
  mget (mmul 3 3 1 A [[S754_nan]; [S754_nan]; [c]]) i 0 = S754_nan.
Proof.
  intros Hi. rewrite mget_mmul by lia. cbn [seq foldl].
  change (mget [[S754_nan]; [S754_nan]; [c]] 0 0) with S754_nan.
  rewrite mul_nan_r. reflexivity.
Qed.

Lemma rotation_entry_finite (l : list float) (i j : nat) :
  Forall (fun a => F32.finite a = true) l ->
  (i < 3)%nat -> (j < 3)%nat ->
  F32.finite (mget (Matrix3f_of_array l) i j) = true.
Proof.
  intros Hl Hi Hj. unfold Matrix3f_of_array. rewrite mget_mbuild by lia.
  destruct (l !! (3 * i + j)%nat) as [a|] eqn:E; [|reflexivity].
  cbn. exact (proj1 (Forall_lookup _ l) Hl _ _ E).
Qed.

(** A rotation with finite entries takes a zero displacement to a zero
    displacement. *)
Lemma rotate_zero (l : list float) (b0 b1 : float) (i : nat) :
  Forall (fun a => F32.finite a = true) l ->
  is_zero b0 -> is_zero b1 -> (i < 3)%nat ->
  is_zero (mget (mmul 3 3 1 (Matrix3f_of_array l) [[b0]; [b1]; [F32.zero]])
             i 0).
Proof.
  intros Hl H0 H1 Hi. rewrite mget_mmul by lia. cbn [seq foldl].
  change (mget [[b0]; [b1]; [F32.zero]] 0 0) with b0.
  change (mget [[b0]; [b1]; [F32.zero]] 1 0) with b1.
  change (mget [[b0]; [b1]; [F32.zero]] 2 0) with F32.zero.
  repeat apply add_zero_zero; try (exists false; reflexivity);
    apply mul_finite_zero; auto using rotation_entry_finite;
    try (exists false; reflexivity); apply rotation_entry_finite; auto; lia.
Qed.

(** Records of cycles. *)
Lemma trailing_snoc (l : list bool) (b : bool) :
  trailing (l ++ [b]) = if b then S (trailing l) else 0%nat.
Proof. unfold trailing. now rewrite foldl_app. Qed.

Lemma foldl_trailing_replicate (k c : nat) :
  foldl (fun c (b : bool) => if b then S c else 0%nat) c (replicate k true)
  = (c + k)%nat.
Proof.
  revert c. induction k as [|k IH]; intros c; cbn; [lia|].
  rewrite IH. lia.
Qed.

Lemma trailing_app_replicate (l : list bool) (k : nat) :
  trailing (l ++ replicate k true) = (trailing l + k)%nat.
Proof. unfold trailing. now rewrite foldl_app, foldl_trailing_replicate. Qed.

Lemma replicate_snoc (k : nat) :
  replicate k true ++ [true] = replicate (S k) true.
Proof. induction k as [|k IH]; cbn; [reflexivity|]. now rewrite IH. Qed.

Lemma trailing_suffix (l : list bool) :
  exists l', l = l' ++ replicate (trailing l) true.
Proof.
  induction l as [|b l IH] using rev_ind.
  - exists []. reflexivity.
  - rewrite trailing_snoc. destruct b.
    + destruct IH as [l' IH]. exists l'.
      rewrite <- replicate_snoc, app_assoc, <- IH. reflexivity.
    + exists (l ++ [false]). cbn. now rewrite app_nil_r.
Qed.

Lemma has_run_snoc (k : nat) (l : list bool) (b : bool) :
  has_run (S k) (l ++ [b])
  <-> has_run (S k) l \/ (b = true /\ (k <= trailing l)%nat).
Proof.
  split.
  - intros (l1 & l2 & E).
    destruct l2 as [|c l2 _] using rev_ind.
    + right. rewrite app_nil_r, <- replicate_snoc, app_assoc in E.
      apply app_inj_tail in E as [-> ->]. split; [reflexivity|].
      rewrite trailing_app_replicate. lia.
    + left. rewrite !app_assoc in E. apply app_inj_tail in E as [-> _].
      exists l1, l2. now rewrite app_assoc.
  - intros [(l1 & l2 & ->)|[-> Hk]].
    + exists l1, (l2 ++ [b]). now rewrite <- !app_assoc.
    + destruct (trailing_suffix l) as [l' E].
      exists (l' ++ replicate (trailing l - k) true), [].
      rewrite app_nil_r, <- replicate_snoc, !app_assoc. f_equal.
      rewrite <- app_assoc, <- replicate_add.
      replace (trailing l - k + k)%nat with (trailing l) by lia.
      exact E.
Qed.

Lemma has_run_nil (k : nat) : ~ has_run (S k) [].
Proof.
  intros (l1 & l2 & E). symmetry in E.
  apply app_eq_nil in E as [_ E]. discriminate.
Qed.

End MoreFacts.

(** ** What the functions leave behind, member by member *)

Section MoreFlowFacts.

Context {HP : Type} {env : Collaborators HP}.
Implicit Types st : lpe HP.

Local Open Scope f32_scope.

(** The fault detection leaves the clock, the flag, the log and the
    filters. *)
Lemma flow_fault_detect_health beta st :
  _timeStamp (flow_fault_detect beta st) = _timeStamp st
  /\ _time_last_flow (flow_fault_detect beta st) = _time_last_flow st
  /\ _flowInitialized (flow_fault_detect beta st) = _flowInitialized st
  /\ mavlink_log (flow_fault_detect beta st) = mavlink_log st
  /\ _flow_gyro_x_high_pass (flow_fault_detect beta st)
     = _flow_gyro_x_high_pass st
  /\ _flow_gyro_y_high_pass (flow_fault_detect beta st)
     = _flow_gyro_y_high_pass st.
Proof.
  unfold flow_fault_detect.
  repeat match goal with
         | |- context [if ?b then _ else _] => destruct b
         end; cbn; auto 10.
Qed.

(** So does [flowCorrect], after what the measurement wrote. *)
Lemma flowCorrect_health st :
  _timeStamp (flowCorrect st) = _timeStamp st
  /\ _flowInitialized (flowCorrect st) = _flowInitialized st
  /\ mavlink_log (flowCorrect st) = mavlink_log st
  /\ _time_last_flow (flowCorrect st)
     = _time_last_flow (fst (flowMeasure st))
  /\ _flow_gyro_x_high_pass (flowCorrect st)
     = _flow_gyro_x_high_pass (fst (flowMeasure st))
  /\ _flow_gyro_y_high_pass (flowCorrect st)
     = _flow_gyro_y_high_pass (fst (flowMeasure st)).
Proof.
  destruct (flowMeasure st) as [st1 [y|]] eqn:E.
  - destruct (flowMeasure_Some _ _ _ E)
      as (_ & _ & _ & _ & _ & _ & Ei & El & Et).
    rewrite (flowCorrect_Some _ _ _ E). cbn [fst].
    match goal with
    | |- context [if ?b then _ else _] => destruct b
    end; cbn [flow_kalman_update _timeStamp _flowInitialized mavlink_log
                _time_last_flow _flow_gyro_x_high_pass
                _flow_gyro_y_high_pass set_x set_P];
      destruct (flow_fault_detect_health
                  (flow_beta (flow_residual st y)
                     (inv (flow_S (_P st) (flow_R st1))))
                  (set_pub_innov
                     {| flow_innov :=
                          (mget (flow_residual st y) 0 0,
                           mget (flow_residual st y) 1 0);
                        flow_innov_var :=
                          (mget (flow_R st1) 0 0, mget (flow_R st1) 1 1) |}
                     st1))
        as (-> & -> & -> & -> & -> & ->); cbn; auto 10.
  - rewrite (flowCorrect_None st) by (now rewrite E).
    rewrite (flowMeasure_None _ _ E). cbn. auto 10.
Qed.

(** The fault level after a successful cycle. *)
Lemma flowCorrect_level st st1 y :
  flowMeasure st = (st1, Some y) ->
  _flowFault (flowCorrect st)
  = if flow_beta (flow_residual st y) (inv (flow_S (_P st) (flow_R st1)))
       >? BETA_TABLE n_y_flow
    then N.max (_flowFault st) FAULT_MINOR
    else FAULT_NONE.
Proof.
  intros E.
  destruct (flowMeasure_Some _ _ _ E) as (_ & _ & _ & _ & _ & Ef & _).
  rewrite (flowCorrect_Some _ _ _ E).
  match goal with
  | |- context [if (?a <? ?b)%N then _ else _] => destruct (a <? b)%N
  end;
    [rewrite (proj1 (flow_kalman_update_frame _ _ _))|];
    rewrite flow_fault_detect_level; cbn [_flowFault set_pub_innov];
    rewrite Ef; reflexivity.
Qed.

(** The integration span in seconds is never NaN. *)
Lemma dt_flow_not_nan st : dt_flow st <> S754_nan.
Proof.
  unfold dt_flow.
  change (F32.of_Z 1000000) with (S754_finite false 16000000 (-4)).
  apply div_finite_not_nan, of_Z_not_nan.
Qed.

(** The observation of an accepted sample without gyro compensation. *)
Lemma flowMeasure_value st st1 y :
  flowMeasure st = (st1, Some y) ->
  _flow_gyro_comp st = 0%Z ->
  let delta_n :=
    mmul 3 3 1 (Matrix3f_of_array (R (_sub_att st)))
      [ [ - (pixel_flow_x_integral (_sub_flow st) - F32.zero) * flow_d st ];
        [ - (pixel_flow_y_integral (_sub_flow st) - F32.zero) * flow_d st ];
        [ F32.zero ] ] in
  y = [ [ mget delta_n 0 0 / dt_flow st ]; [ mget delta_n 1 0 / dt_flow st ] ].
Proof.
  intros E Hc. revert E. unfold flowMeasure. rewrite Hc.
  change (negb (0 =? 0)%Z) with false.
  repeat match goal with
         | |- context [if ?b then _ else _] => destruct b
         end; try discriminate.
  intros [= _ <-]. reflexivity.
Qed.

(** One cycle of [flowInit] on the count and the flag. *)
Lemma flowInit_health st :
  BlockStats.getCount (_flowQStats (flowInit st))
  = (if flow_accepts st
     then BlockStats.getCount (_flowQStats st) + 1 else 0)%N
  /\ _flowInitialized (flowInit st)
     = if flow_accepts st
       then _flowInitialized st
            || (10 <? BlockStats.getCount (_flowQStats st) + 1)%N
       else _flowInitialized st.
Proof.
  unfold flow_accepts, flowInit.
  destruct (flowMeasure st) as [st1 [y|]] eqn:E; cbn [snd].
  - destruct (flowMeasure_Some _ _ _ E)
      as (_ & EQ & _ & _ & _ & _ & Ei & _).
    unfold REQ_FLOW_INIT_COUNT. rewrite EQ.
    change (BlockStats.getCount
              (BlockStats.update (quality (_sub_flow st)) (_flowQStats st)))
      with (BlockStats.getCount (_flowQStats st) + 1)%N.
    destruct (10 <? BlockStats.getCount (_flowQStats st) + 1)%N; cbn.
    + rewrite EQ, orb_true_r. auto.
    + rewrite EQ, Ei, orb_false_r. auto.
  - rewrite (flowMeasure_None _ _ E). cbn. auto.
Qed.

(** The rows of the measurement matrix. *)
Lemma flow_C_one (i : nat) :
  (i < 2)%nat -> (X_vx < n_x)%nat -> (X_vy < n_x)%nat ->
  mget flow_C i (flow_axis_state i) = F32.one.
Proof.
  intros Hi Hvx Hvy. unfold flow_C, Y_flow_vx, Y_flow_vy, n_y_flow.
  destruct i as [|[|i]]; [| |lia]; cbn [flow_axis_state].
  - rewrite mget_mset_row_ne by lia. apply mget_mset_mzero; lia.
  - unfold mget, mset, mzero, mbuild, Mat in *.
    rewrite list_lookup_alter_eq, list_lookup_alter_ne by lia.
    rewrite list_lookup_fmap, lookup_seq_lt by lia.
    cbn. rewrite list_lookup_insert_eq; [reflexivity|].
    now rewrite length_fmap, length_seq.
Qed.

Lemma flow_C_zero (i j : nat) :
  (i < 2)%nat -> (j < n_x)%nat -> j <> flow_axis_state i ->
  mget flow_C i j = F32.zero.
Proof.
  intros Hi Hj Hne. unfold flow_C, Y_flow_vx, Y_flow_vy, n_y_flow.
  destruct i as [|[|i]]; [| |lia]; cbn [flow_axis_state] in Hne.
  - rewrite mget_mset_row_ne, mget_mset_col_ne by lia.
    unfold mzero. now rewrite mget_mbuild by lia.
  - rewrite mget_mset_col_ne, mget_mset_row_ne by lia.
    unfold mzero. now rewrite mget_mbuild by lia.
Qed.

Lemma flow_axis_state_lt (i : nat) :
  (X_vx < n_x)%nat -> (X_vy < n_x)%nat -> (flow_axis_state i < n_x)%nat.
Proof. destruct i; auto. Qed.

(** A row of [C] against a column of finite values. *)
Lemma flow_C_selects (x : nat -> float) (i : nat) :
  (X_vx < n_x)%nat -> (X_vy < n_x)%nat -> (i < 2)%nat ->
  (forall j, (j < n_x)%nat -> F32.finite (x j) = true) ->
  foldl (fun acc j => acc + mget flow_C i j * x j) F32.zero (seq 0 n_x)
  = F32.zero + x (flow_axis_state i).
Proof.
  intros Hvx Hvy Hi Hx.
  apply (select_row (fun j => mget flow_C i j) x);
    [now apply flow_axis_state_lt|now apply flow_C_one| |exact Hx].
  intros j Hj Hne. now apply flow_C_zero.
Qed.

End MoreFlowFacts.

(** ** Further properties of the code *)

Section Coverage.

Context {HP : Type} {env : Collaborators HP}.
Implicit Types st : lpe HP.

Local Open Scope f32_scope.

(** X1.  [flowMeasure] rejects a sample exactly when one of its seven
    tests fires: roll above 0.5, pitch above 0.5, height above ground
    below 0.3, quality below the minimum, height not valid, integration
    span above 0.5 s, integration span below 1e-6 s.  Nothing else makes
    it return -1. *)
Theorem flowMeasure_rejects_iff st :
  snd (flowMeasure st) = None
  <-> ((roll (_sub_att st) >? F32.lit 5 10) = true
       \/ (pitch (_sub_att st) >? F32.lit 5 10) = true
       \/ (agl st <? flow_min_agl) = true
       \/ (quality (_sub_flow st) <? _flow_min_q st) = true
       \/ _validTZ st = false
       \/ (dt_flow st >? F32.lit 5 10) = true
       \/ (dt_flow st <? F32.lit 1 1000000) = true).
Proof.
  split.
  - intros HN.
    destruct (roll (_sub_att st) >? F32.lit 5 10) eqn:E1; auto.
    destruct (pitch (_sub_att st) >? F32.lit 5 10) eqn:E2; auto.
    destruct (agl st <? flow_min_agl) eqn:E3; auto.
    destruct (quality (_sub_flow st) <? _flow_min_q st) eqn:E4; auto 10.
    destruct (_validTZ st) eqn:E5; auto 10.
    destruct (dt_flow st >? F32.lit 5 10) eqn:E6; auto 10.
    destruct (dt_flow st <? F32.lit 1 1000000) eqn:E7; auto 10.
    destruct (flowMeasure_pass st E1 E2 E3 E4 E5 E6 E7) as (st1 & y & E).
    rewrite E in HN. discriminate.
  - intros H. now rewrite (flowMeasure_gate _ H).
Qed.

(** X2.  The timeout clock.  An accepted sample sets the time of the last
    flow to the time of the cycle, in [flowMeasure] and so in
    [flowCorrect] and [flowInit], and a timeout check in the same cycle
    then changes nothing.  A rejected sample, whatever test rejected it,
    leaves the time of the last flow as it was. *)
Theorem flow_timeout_clock st :
  (forall st1 y,
      flowMeasure st = (st1, Some y) ->
      _time_last_flow st1 = _timeStamp st
      /\ _time_last_flow (flowCorrect st) = _timeStamp st
      /\ _time_last_flow (flowInit st) = _timeStamp st
      /\ flowCheckTimeout (flowCorrect st) = flowCorrect st
      /\ flowCheckTimeout (flowInit st) = flowInit st)
  /\ (snd (flowMeasure st) = None ->
      _time_last_flow (flowCorrect st) = _time_last_flow st
      /\ _time_last_flow (flowInit st) = _time_last_flow st).
Proof.
  assert (Hno : forall st', _time_last_flow st' = _timeStamp st' ->
                            flowCheckTimeout st' = st').
  { intros st' Ht. unfold flowCheckTimeout, sub_u64. rewrite Ht, Z.sub_diag.
    reflexivity. }
  split.
  - intros st1 y E.
    destruct (flowMeasure_Some _ _ _ E)
      as (Ht & _ & _ & _ & _ & _ & _ & _ & Ets).
    destruct (flowCorrect_health st) as (Hts & _ & _ & Hl & _).
    rewrite E in Hl. cbn [fst] in Hl.
    assert (Hi : _time_last_flow (flowInit st) = _timeStamp st
                 /\ _timeStamp (flowInit st) = _timeStamp st).
    { unfold flowInit. rewrite E.
      match goal with
      | |- context [if ?b then _ else _] => destruct b
      end; cbn; auto. }
    destruct Hi as [Hi1 Hi2].
    split; [exact Ht|]. split; [congruence|]. split; [exact Hi1|].
    split; apply Hno; congruence.
  - intros E. split.
    + now rewrite (flowCorrect_None _ E).
    + unfold flowInit.
      destruct (flowMeasure st) as [st1 [y|]] eqn:E1; [discriminate|].
      now rewrite (flowMeasure_None _ _ E1).
Qed.

(** X3.  A second timeout check right after a first one changes nothing:
    the module is deinitialized at most once and the critical message is
    logged at most once until the module is initialized again. *)
Theorem flowCheckTimeout_idempotent st :
  flowCheckTimeout (flowCheckTimeout st) = flowCheckTimeout st
  /\ (length (mavlink_log (flowCheckTimeout st))
      <= S (length (mavlink_log st)))%nat.
Proof.
  unfold flowCheckTimeout.
  destruct (FLOW_TIMEOUT <? sub_u64 (_timeStamp st) (_time_last_flow st))%Z
    eqn:E; [|rewrite E; auto].
  destruct (_flowInitialized st) eqn:Ei.
  - cbn. rewrite E. cbn. rewrite length_app. cbn. split; [reflexivity|lia].
  - rewrite E, Ei. auto.
Qed.

(** X4.  The two high-pass filters.  An accepted sample steps each of
    them once, with the gyro integral of its axis, when gyro compensation
    is on, and leaves them when it is off; [flowCorrect] and [flowInit]
    add nothing to that.  A rejected sample and the timeout check leave
    them. *)
Theorem flow_gyro_high_pass_steps st :
  (forall st1 y,
      flowMeasure st = (st1, Some y) ->
      let hx := if (_flow_gyro_comp st =? 0)%Z
                then _flow_gyro_x_high_pass st
                else fst (hp_update (_flow_gyro_x_high_pass st)
                            (gyro_x_rate_integral (_sub_flow st))) in
      let hy := if (_flow_gyro_comp st =? 0)%Z
                then _flow_gyro_y_high_pass st
                else fst (hp_update (_flow_gyro_y_high_pass st)
                            (gyro_y_rate_integral (_sub_flow st))) in
      _flow_gyro_x_high_pass st1 = hx /\ _flow_gyro_y_high_pass st1 = hy
      /\ _flow_gyro_x_high_pass (flowCorrect st) = hx
      /\ _flow_gyro_y_high_pass (flowCorrect st) = hy
      /\ _flow_gyro_x_high_pass (flowInit st) = hx
      /\ _flow_gyro_y_high_pass (flowInit st) = hy)
  /\ (snd (flowMeasure st) = None ->
      _flow_gyro_x_high_pass (flowCorrect st) = _flow_gyro_x_high_pass st
      /\ _flow_gyro_y_high_pass (flowCorrect st) = _flow_gyro_y_high_pass st
      /\ _flow_gyro_x_high_pass (flowInit st) = _flow_gyro_x_high_pass st
      /\ _flow_gyro_y_high_pass (flowInit st) = _flow_gyro_y_high_pass st)
  /\ _flow_gyro_x_high_pass (flowCheckTimeout st) = _flow_gyro_x_high_pass st
  /\ _flow_gyro_y_high_pass (flowCheckTimeout st) = _flow_gyro_y_high_pass st.
Proof.
  split; [|split].
  - intros st1 y E hx hy.
    assert (H1 : _flow_gyro_x_high_pass st1 = hx
                 /\ _flow_gyro_y_high_pass st1 = hy).
    { revert E. unfold flowMeasure, hx, hy.
      destruct (_flow_gyro_comp st =? 0)%Z; cbn [negb];
        repeat match goal with
               | |- context [if ?b then _ else _] => destruct b
               end; try discriminate.
      - intros [= <- _]. cbn. auto.
      - destruct (hp_update (_flow_gyro_x_high_pass st) _) as [hx' gx].
        cbn [_flow_gyro_y_high_pass set_flow_gyro_x_high_pass _sub_flow].
        destruct (hp_update (_flow_gyro_y_high_pass st) _) as [hy' gy].
        intros [= <- _]. cbn. auto. }
    destruct H1 as [H1 H2].
    destruct (flowCorrect_health st) as (_ & _ & _ & _ & Hx & Hy).
    rewrite E in Hx, Hy. cbn [fst] in Hx, Hy.
    repeat split; try congruence;
      unfold flowInit; rewrite E;
      match goal with
      | |- context [if ?b then _ else _] => destruct b
      end; cbn; assumption.
  - intros E.
    rewrite (flowCorrect_None _ E). unfold flowInit.
    destruct (flowMeasure st) as [st1 [y|]] eqn:E1; [discriminate|].
    rewrite (flowMeasure_None _ _ E1). cbn. auto.
  - unfold flowCheckTimeout.
    repeat match goal with
           | |- context [if ?b then _ else _] => destruct b
           end; cbn; auto.
Qed.

(** X5.  Who writes what.  [flowInit], [flowDeinit] and
    [flowCheckTimeout] never write the state vector, the covariance or
    the innovations; [flowDeinit] and [flowCheckTimeout] never write the
    fault level or the time of the last flow, and [flowDeinit] never
    logs; [flowCorrect] never writes the initialization flag and never
    logs. *)
Theorem flow_writers st :
  (_x (flowInit st) = _x st /\ _P (flowInit st) = _P st
   /\ _pub_innov (flowInit st) = _pub_innov st)
  /\ (_x (flowDeinit st) = _x st /\ _P (flowDeinit st) = _P st
      /\ _pub_innov (flowDeinit st) = _pub_innov st
      /\ _flowFault (flowDeinit st) = _flowFault st
      /\ _time_last_flow (flowDeinit st) = _time_last_flow st
      /\ mavlink_log (flowDeinit st) = mavlink_log st)
  /\ (_x (flowCheckTimeout st) = _x st /\ _P (flowCheckTimeout st) = _P st
      /\ _pub_innov (flowCheckTimeout st) = _pub_innov st
      /\ _flowFault (flowCheckTimeout st) = _flowFault st
      /\ _time_last_flow (flowCheckTimeout st) = _time_last_flow st)
  /\ (_flowInitialized (flowCorrect st) = _flowInitialized st
      /\ mavlink_log (flowCorrect st) = mavlink_log st).
Proof.
  split; [|split; [|split]].
  - unfold flowInit.
    destruct (flowMeasure st) as [st1 [y|]] eqn:E.
    + destruct (flowMeasure_Some _ _ _ E) as (_ & _ & Ex & EP & Ei & _).
      match goal with
      | |- context [if ?b then _ else _] => destruct b
      end; cbn; auto.
    + rewrite (flowMeasure_None _ _ E). cbn. auto.
  - cbn. auto 10.
  - unfold flowCheckTimeout.
    repeat match goal with
           | |- context [if ?b then _ else _] => destruct b
           end; cbn; auto 10.
  - destruct (flowCorrect_health st) as (_ & Hi & Hl & _). auto.
Qed.

(** X6.  When the Kalman update runs, after a successful measurement.
    With the disable level above MINOR and the fault level below the
    disable level, it runs whatever the test of [beta] says: this
    detector alone never suppresses a correction.  With [beta] not above
    the threshold and a disable level above NONE, it runs whatever the
    fault level was, the level being reset first.  With the disable
    level at NONE it never runs. *)
Theorem flowCorrect_when_corrected st st1 y :
  flowMeasure st = (st1, Some y) ->
  let r := flow_residual st y in
  let S_I := inv (flow_S (_P st) (flow_R st1)) in
  let beta := flow_beta r S_I in
  let st3 :=
    flow_fault_detect beta
      (set_pub_innov
         {| flow_innov := (mget r 0 0, mget r 1 0);
            flow_innov_var :=
              (mget (flow_R st1) 0 0, mget (flow_R st1) 1 1) |} st1) in
  ((FAULT_MINOR < fault_lvl_disable)%N ->
   (_flowFault st < fault_lvl_disable)%N ->
   flowCorrect st = flow_kalman_update r S_I st3)
  /\ ((beta >? BETA_TABLE n_y_flow) = false ->
      (0 < fault_lvl_disable)%N ->
      flowCorrect st = flow_kalman_update r S_I st3)
  /\ (fault_lvl_disable = 0%N ->
      _x (flowCorrect st) = _x st /\ _P (flowCorrect st) = _P st).
Proof.
  intros E r S_I beta st3.
  destruct (flowMeasure_Some _ _ _ E) as (_ & _ & Ex & EP & _ & Ef & _).
  pose proof (flowCorrect_Some _ _ _ E) as Hc. cbv zeta in Hc.
  fold r S_I beta st3 in Hc.
  assert (Hl : _flowFault st3
               = if beta >? BETA_TABLE n_y_flow
                 then N.max (_flowFault st) FAULT_MINOR else FAULT_NONE).
  { unfold st3. rewrite flow_fault_detect_level.
    cbn [_flowFault set_pub_innov]. now rewrite Ef. }
  unfold FAULT_MINOR, FAULT_NONE in *.
  repeat split.
  - intros H1 H2. rewrite Hc.
    destruct (N.ltb_spec (_flowFault st3) fault_lvl_disable) as [|Hge];
      [reflexivity|].
    rewrite Hl in Hge. destruct (beta >? BETA_TABLE n_y_flow); lia.
  - intros Hb H0. rewrite Hc.
    destruct (N.ltb_spec (_flowFault st3) fault_lvl_disable) as [|Hge];
      [reflexivity|].
    rewrite Hl, Hb in Hge. lia.
  - rewrite Hc.
    destruct (N.ltb_spec (_flowFault st3) fault_lvl_disable) as [Hlt|_];
      [lia|].
    unfold st3. now rewrite (proj1 (flow_fault_detect_frame _ _)).
  - rewrite Hc.
    destruct (N.ltb_spec (_flowFault st3) fault_lvl_disable) as [Hlt|_];
      [lia|].
    unfold st3.
    now rewrite (proj1 (proj2 (flow_fault_detect_frame _ _))).
Qed.

(** X7.  A height above ground that is NaN passes the height test.  With
    the other tests passing the sample is accepted with an observation
    that is NaN on both axes; [flowCorrect] then publishes NaN residuals
    and, [beta] being NaN and so not above the threshold, leaves the
    fault level at NONE whatever it was. *)
Theorem flow_nan_height st :
  agl st = S754_nan ->
  (roll (_sub_att st) >? F32.lit 5 10) = false ->
  (pitch (_sub_att st) >? F32.lit 5 10) = false ->
  (quality (_sub_flow st) <? _flow_min_q st) = false ->
  _validTZ st = true ->
  (dt_flow st >? F32.lit 5 10) = false ->
  (dt_flow st <? F32.lit 1 1000000) = false ->
  exists st1,
    flowMeasure st = (st1, Some [[S754_nan]; [S754_nan]])
    /\ flow_innov (_pub_innov (flowCorrect st)) = (S754_nan, S754_nan)
    /\ _flowFault (flowCorrect st) = FAULT_NONE.
Proof.
  intros Hagl H1 H2 H4 H5 H6 H7.
  assert (Hm : exists st1,
             flowMeasure st = (st1, Some [[S754_nan]; [S754_nan]])).
  { unfold flowMeasure, flow_d.
    rewrite Hagl, H1, H2, H4, H5, H6, H7.
    change (S754_nan <? flow_min_agl) with false.
    cbn [orb negb].
    destruct (negb (_flow_gyro_comp st =? 0)%Z).
    - destruct (hp_update (_flow_gyro_x_high_pass st) _) as [hx gx].
      cbn [_flow_gyro_y_high_pass set_flow_gyro_x_high_pass _sub_flow].
      destruct (hp_update (_flow_gyro_y_high_pass st) _) as [hy gy].
      eexists. f_equal. f_equal.
      rewrite !mul_nan_r, !rotate_nan by lia. reflexivity.
    - eexists. f_equal. f_equal.
      rewrite !mul_nan_r, !rotate_nan by lia. reflexivity. }
  destruct Hm as [st1 E]. exists st1. split; [exact E|]. split.
  - rewrite (flowCorrect_pub_innov _ _ _ E). reflexivity.
  - rewrite (flowCorrect_level _ _ _ E).
    change (flow_beta (flow_residual st [[S754_nan]; [S754_nan]])
              (inv (flow_S (_P st) (flow_R st1)))) with S754_nan.
    now rewrite gtb_nan_l.
Qed.

(** X8.  Initialization over many cycles.  From a module that is not
    initialized and whose statistics are reset, after any cycles of
    [flowInit] the count is the number of samples accepted in a row up to
    the last cycle, and the module is initialized exactly when eleven
    samples in a row were accepted at some point. *)
Theorem flowInit_cycles_runs (st0 st : lpe HP) (l : list bool) :
  BlockStats.getCount (_flowQStats st0) = 0%N ->
  _flowInitialized st0 = false ->
  flowInit_cycles st0 l st ->
  BlockStats.getCount (_flowQStats st) = N.of_nat (trailing l)
  /\ (_flowInitialized st = true <-> has_run 11 l).
Proof.
  intros Hc Hi Hcyc.
  induction Hcyc as [|l st st_in Hcyc [IHc IHi] EQ Ei].
  - split; [exact Hc|]. rewrite Hi. split; [discriminate|].
    intros H. now apply has_run_nil in H.
  - destruct (flowInit_health st_in) as [H1 H2].
    rewrite H1, H2, trailing_snoc, has_run_snoc, EQ, Ei, IHc.
    destruct (flow_accepts st_in).
    + split; [lia|].
      rewrite orb_true_iff, IHi, N.ltb_lt. split.
      * intros [?|?]; [now left|right]. split; [reflexivity|lia].
      * intros [?|[_ ?]]; [now left|right]. lia.
    + split; [reflexivity|]. rewrite IHi. split; [now left|].
      intros [?|[? _]]; [assumption|discriminate].
Qed.

(** X9.  On every accepted sample the integration span in seconds is a
    finite number above zero: the velocity is never a quotient by zero,
    by an infinity or by NaN. *)
Theorem flowMeasure_span_positive st st1 y :
  flowMeasure st = (st1, Some y) ->
  exists m e, dt_flow st = S754_finite false m e.
Proof.
  intros E.
  assert (HN : forall d, d -> flowMeasure st = (st, None) -> False)
    by (intros _ _ H; rewrite E in H; discriminate).
  pose proof (dt_flow_not_nan st) as Hn.
  pose proof (flowMeasure_gate st) as Hg.
  destruct (dt_flow st) as [s|s| |s m e] eqn:Ed; [| | |destruct s].
  - exfalso. apply (HN True I), Hg. do 6 right. now destruct s.
  - exfalso. apply (HN True I), Hg.
    destruct s; [do 6 right|do 5 right; left]; reflexivity.
  - congruence.
  - exfalso. apply (HN True I), Hg. do 6 right. reflexivity.
  - eauto.
Qed.

(** X10.  No flow, no velocity.  Without gyro compensation, an accepted
    sample whose two flow angles are zero gives an observation that is
    zero on both axes, whatever the height and the attitude, as long as
    the distance to the ground and the nine entries of the rotation are
    finite. *)
Theorem flowMeasure_zero_flow st st1 y :
  flowMeasure st = (st1, Some y) ->
  _flow_gyro_comp st = 0%Z ->
  is_zero (pixel_flow_x_integral (_sub_flow st)) ->
  is_zero (pixel_flow_y_integral (_sub_flow st)) ->
  F32.finite (flow_d st) = true ->
  Forall (fun a => F32.finite a = true) (R (_sub_att st)) ->
  is_zero (mget y Y_flow_vx 0) /\ is_zero (mget y Y_flow_vy 0).
Proof.
  intros E Hc Hx Hy Hd HR.
  rewrite (flowMeasure_value _ _ _ E Hc).
  assert (Hdt : forall a, is_zero a -> is_zero (a / dt_flow st)).
  { intros a [s ->].
    pose proof (dt_flow_not_nan st) as Hn.
    destruct (dt_flow st) as [t|t| |t m e] eqn:Ed; try congruence;
      try (eexists; reflexivity).
    exfalso.
    assert (H : flowMeasure st = (st, None)).
    { apply flowMeasure_gate. do 6 right. rewrite Ed. now destruct t. }
    rewrite E in H. discriminate. }
  split; apply Hdt, rotate_zero; auto using mul_zero_finite, axis_zero.
Qed.

(** X11.  What the residual is.  With the two velocity components inside
    the state vector and a state vector of finite values, the residual on
    each axis is the observed velocity less the velocity component of the
    state (added to the positive zero the product [C x] starts from). *)
Theorem flow_residual_selects st (y : Mat) :
  (X_vx < n_x)%nat -> (X_vy < n_x)%nat ->
  (forall j, (j < n_x)%nat -> F32.finite (mget (_x st) j 0) = true) ->
  mget (flow_residual st y) 0 0
  = mget y 0 0 - (F32.zero + mget (_x st) X_vx 0)
  /\ mget (flow_residual st y) 1 0
     = mget y 1 0 - (F32.zero + mget (_x st) X_vy 0).
Proof.
  intros Hvx Hvy Hx. unfold flow_residual, msub, n_y_flow.
  rewrite !mget_mbuild, !mget_mmul by lia.
  split; f_equal.
  - apply (flow_C_selects (fun j => mget (_x st) j 0) 0); auto.
  - apply (flow_C_selects (fun j => mget (_x st) j 0) 1); auto.
Qed.

(** X12.  What the residual covariance is.  With the two velocity
    components inside the state vector and a covariance of finite values,
    each entry of [S = C P C^T + R] is the entry of [P] at the velocity
    components of its two axes (added to the positive zero) plus the
    entry of [R]: [S] is the velocity block of [P] plus the noise. *)
Theorem flow_S_velocity_block (P Rm : Mat) (i j : nat) :
  (X_vx < n_x)%nat -> (X_vy < n_x)%nat ->
  (forall a b, (a < n_x)%nat -> (b < n_x)%nat ->
               F32.finite (mget P a b) = true) ->
  (i < 2)%nat -> (j < 2)%nat ->
  mget (flow_S P Rm) i j
  = F32.zero + mget P (flow_axis_state i) (flow_axis_state j) + mget Rm i j.
Proof.
  intros Hvx Hvy HPf Hi Hj. unfold flow_S, madd, n_y_flow.
  rewrite mget_mbuild by lia. f_equal.
  rewrite mget_mmul by lia.
  assert (HCP : forall k, (k < n_x)%nat ->
              mget (mmul 2 n_x n_x flow_C P) i k
              = F32.zero + mget P (flow_axis_state i) k).
  { intros k Hk. rewrite mget_mmul by lia.
    apply (flow_C_selects (fun a => mget P a k) i); auto. }
  rewrite (select_col (fun k => mget (mmul 2 n_x n_x flow_C P) i k)
             (fun k => mget (transpose 2 n_x flow_C) k j)
             (flow_axis_state j) n_x).
  - rewrite HCP by (now apply flow_axis_state_lt).
    apply zero_add_idem, HPf; now apply flow_axis_state_lt.
  - now apply flow_axis_state_lt.
  - unfold transpose.
    rewrite mget_mbuild by (try apply flow_axis_state_lt; auto).
    now apply flow_C_one.
  - intros k Hk Hne. unfold transpose. rewrite mget_mbuild by lia.
    now apply flow_C_zero.
  - intros k Hk. rewrite HCP by exact Hk.
    apply finite_zero_add, HPf; [now apply flow_axis_state_lt|exact Hk].
Qed.

End Coverage.

(** ** The further properties on the reference configuration *)

Section CoverageInstances.

Local Open Scope f32_scope.

(** After the nominal correction the timeout check is idle. *)
Lemma nominal_timeout_idle :
  flowCheckTimeout (flowCorrect Ref.nominal) = flowCorrect Ref.nominal.
Proof.
  destruct (proj1 (flow_timeout_clock Ref.nominal)
              (fst (flowMeasure Ref.nominal)) [[- F32.one]; [F32.zero]])
    as (_ & _ & _ & H & _).
  - vm_compute. reflexivity.
  - exact H.
Defined.

(** With gyro compensation on, a correction steps both filters once. *)
Lemma gyro_comp_on_steps :
  _flow_gyro_x_high_pass (flowCorrect RefCases.gyro_comp_on)
  = fst (Ref.high_pass (F32.zero, F32.zero) (F32.lit 2 1000))
  /\ _flow_gyro_y_high_pass (flowCorrect RefCases.gyro_comp_on)
     = fst (Ref.high_pass (F32.zero, F32.zero) (F32.lit 3 1000)).
Proof.
  destruct (proj1 (flow_gyro_high_pass_steps RefCases.gyro_comp_on)
              (fst (flowMeasure RefCases.gyro_comp_on))
              (default [] (snd (flowMeasure RefCases.gyro_comp_on))))
    as (_ & _ & Hx & Hy & _).
  - vm_compute. reflexivity.
  - split; [exact Hx|exact Hy].
Defined.

(** The nominal cycle raises the fault level to MINOR and corrects the
    state all the same: the x velocity goes from 0 to -0.5. *)
Lemma nominal_corrected :
  mget (_x (flowCorrect Ref.nominal)) 3 0 = S754_finite true 8388608 (-24).
Proof.
  destruct (flowCorrect_when_corrected Ref.nominal
              (fst (flowMeasure Ref.nominal)) [[- F32.one]; [F32.zero]])
    as (H & _).
  - vm_compute. reflexivity.
  - rewrite H; vm_compute; reflexivity.
Defined.

(** A NaN height resets a fault level of 2. *)
Lemma nan_height_clears_fault :
  _flowFault RefCases.nan_height = 2%N
  /\ _flowFault (flowCorrect RefCases.nan_height) = FAULT_NONE.
Proof.
  split; [reflexivity|].
  destruct (flow_nan_height RefCases.nan_height) as (st1 & _ & _ & H);
    [vm_compute; reflexivity ..|exact H].
Defined.

(** One accepted cycle after a deinitialization: one sample counted. *)
Lemma deinit_then_one_cycle :
  BlockStats.getCount
    (_flowQStats (flowInit (flowDeinit Ref.nominal))) = 1%N.
Proof.
  destruct (flowInit_cycles_runs (flowDeinit Ref.nominal)
              (flowInit (flowDeinit Ref.nominal))
              ([] ++ [flow_accepts (flowDeinit Ref.nominal)]))
    as [H _].
  - reflexivity.
  - reflexivity.
  - apply (flowInit_cycles_snoc (flowDeinit Ref.nominal) []
             (flowDeinit Ref.nominal) (flowDeinit Ref.nominal));
      [constructor|reflexivity|reflexivity].
  - rewrite H. vm_compute. reflexivity.
Defined.

(** The nominal span is 0.01 s. *)
Lemma nominal_span_positive :
  exists m e, dt_flow Ref.nominal = S754_finite false m e.
Proof.
  apply (flowMeasure_span_positive Ref.nominal
           (fst (flowMeasure Ref.nominal)) [[- F32.one]; [F32.zero]]).
  vm_compute. reflexivity.
Defined.

(** Hovering over one metre: no velocity observed. *)
Lemma hovering_zero_velocity :
  is_zero (mget (default [] (snd (flowMeasure RefCases.hovering)))
             Y_flow_vx 0)
  /\ is_zero (mget (default [] (snd (flowMeasure RefCases.hovering)))
                Y_flow_vy 0).
Proof.
  apply (flowMeasure_zero_flow RefCases.hovering
           (fst (flowMeasure RefCases.hovering))).
  - vm_compute. reflexivity.
  - reflexivity.
  - exists false. reflexivity.
  - exists false. reflexivity.
  - vm_compute. reflexivity.
  - repeat constructor.
Defined.

(** The nominal residual on x is -1 less the x velocity of the state. *)
Lemma nominal_residual :
  mget (flow_residual Ref.nominal [[- F32.one]; [F32.zero]]) 0 0
  = - F32.one - (F32.zero + mget (_x Ref.nominal) 3 0).
Proof.
  destruct (flow_residual_selects Ref.nominal [[- F32.one]; [F32.zero]])
    as [H _].
  - cbn. lia.
  - cbn. lia.
  - intros j Hj. cbn in Hj.
    do 10 (destruct j as [|j]; [reflexivity|]). lia.
  - exact H.
Defined.

(** The nominal residual covariance on x is the x velocity variance of
    the state plus the noise variance. *)
Lemma nominal_S :
  mget (flow_S (_P Ref.nominal) (flow_R Ref.nominal)) 0 0
  = F32.zero + mget (_P Ref.nominal) 3 3 + mget (flow_R Ref.nominal) 0 0.
Proof.
  refine (flow_S_velocity_block (_P Ref.nominal) (flow_R Ref.nominal) 0 0
            _ _ _ _ _).
  - cbn. lia.
  - cbn. lia.
  - intros a b Ha Hb. cbn in Ha, Hb.
    change (_P Ref.nominal) with (Ref.P0 (F32.lit 1 100)).
    unfold Ref.P0. rewrite mget_mbuild by lia.
    destruct (a =? b)%nat; reflexivity.
  - lia.
  - lia.
Defined.

End CoverageInstances.
